(** * Digital diary: day-bucket upsert and period aggregation

    A shallow embedding of the server's storage layer ([server/db.ts]), of the
    tRPC procedures built on it ([appRouter]) and of the statistics computed by
    the insights page ([InsightsPage.tsx]), followed by the properties stated
    about them.

    Conventions of the embedding.
    - A JavaScript [number] that holds a mood intensity or an average is an
      IEEE 754 binary64 value: Rocq's primitive [float], with the machine's
      own [+] and [/].  Identifiers, counters and lengths are integers far
      below 2^53 and are kept in [Z] or [nat].
    - A [Date] is its time value, the milliseconds since the epoch, in [Z].
      Local time is the time value shifted by a fixed offset [tz] (in
      milliseconds, positive east of Greenwich); zones that change their
      offset during the year are outside the model.
    - The database is the list of rows of each table, in insertion order,
      with the table's AUTO_INCREMENT counter.  A row holds the values the
      statement carried: what the database engine does to a value on its way
      into a column (TIMESTAMP precision, INT rounding, DECIMAL range) is not
      modelled, nor are the columns the engine maintains by itself
      ([updatedAt], and [createdAt] where no query reads it).
    - [getDb ()] resolves to the handle or to [null]; the second is the
      "database not available" state of the source. *)

From Stdlib Require Import ZArith List String Ascii Bool Lia Permutation Sorted.
From Stdlib Require Import Floats.PrimFloat Floats.FloatOps Floats.SpecFloat.
From Stdlib Require Import DecimalString Uint63.
Import ListNotations.
Open Scope string_scope.
Open Scope Z_scope.

(** ** JavaScript numbers and the two library methods the code formats with *)

Module JsNumber.

Definition number := float.

(** [x || 0] on a number: [0], [-0] and [NaN] are the falsy numbers. *)
Definition falsy (x : number) : bool := PrimFloat.is_zero x || PrimFloat.is_nan x.

Definition orZero (x : number) : number := if falsy x then 0%float else x.

(** An integer as a number (exact below 2^53). *)
Definition ofZ (z : Z) : number :=
  if z <? 0 then PrimFloat.opp (PrimFloat.of_uint63 (Uint63.of_Z (- z)))
  else PrimFloat.of_uint63 (Uint63.of_Z z).

(** Decimal digits of a non-negative integer. *)
Definition digits (n : Z) : string := NilZero.string_of_uint (N.to_uint (Z.to_N n)).

Fixpoint zeros (k : nat) : string :=
  match k with O => "" | S k' => String "0" (zeros k') end.

Definition substringFrom (i : nat) (s : string) : string :=
  substring i (String.length s - i) s.

(** Steps 8 to 10 of [Number.prototype.toFixed]: the digits of [n] with a
    decimal point before the last [f] of them, padded with zeros on the left
    to [f + 1] digits. *)
Definition fixedDigits (f : nat) (n : Z) : string :=
  let m := digits n in
  match f with
  | O => m
  | _ =>
      let m' := if Nat.leb (String.length m) f
                then zeros (f + 1 - String.length m) ++ m else m in
      let k := String.length m' in
      substring 0 (k - f) m' ++ "." ++ substringFrom (k - f) m'
  end.

(** The integer [n] for which [n / 10^f - m * 2^e] is as close to zero as
    possible, the larger one when there are two. *)
Definition scaled (m e : Z) (f : nat) : Z :=
  let v := m * 10 ^ Z.of_nat f in
  if 0 <=? e then v * 2 ^ e
  else (2 * v + 2 ^ (- e)) / 2 ^ (- e + 1).

(** [Number::toString] for a finite value of at least 10^21, where every
    binary64 value is an integer [N = m * 2^e]: the shortest [s] of [k] digits
    with [s * 10^(n - k)] inside the rounding interval of [N], the closest to
    [N] among those, printed in exponential form.  [lo2] and [hi2] are twice
    the ends of the interval, which contains them when [m] is even. *)
Definition candidates (N lo2 hi2 : Z) (closed : bool) (k n : Z) : list (Z * Z * Z) :=
  let u := 10 ^ (n - k) in
  let s0 := N / u in
  filter (fun c => let '(_, s, _) := c in
            (10 ^ (k - 1) <=? s) && (s <? 10 ^ k) &&
            (if closed then (lo2 <=? 2 * s * u) && (2 * s * u <=? hi2)
             else (lo2 <? 2 * s * u) && (2 * s * u <? hi2)))
         [ (Z.abs (s0 * u - N), s0, n); (Z.abs ((s0 + 1) * u - N), s0 + 1, n) ].

Definition closer (a b : Z * Z * Z) : Z * Z * Z :=
  let '(da, sa, _) := a in
  let '(db, sb, _) := b in
  if da <? db then a else if db <? da then b else if Z.even sa then a else b.

Fixpoint shortest (fuel : nat) (N lo2 hi2 : Z) (closed : bool) (d k : Z)
  : option (Z * Z * Z) :=
  match fuel with
  | O => None
  | S fuel' =>
      match (candidates N lo2 hi2 closed k d
             ++ candidates N lo2 hi2 closed k (d + 1))%list with
      | [] => shortest fuel' N lo2 hi2 closed d (k + 1)
      | c :: cs => let '(_, s, n) := fold_left closer cs c in Some (s, n, k)
      end
  end.

Definition numDigits (n : Z) : Z := Z.of_nat (String.length (digits n)).

Definition exponential (s n k : Z) : string :=
  let ds := digits s in
  (if k =? 1 then ds else substring 0 1 ds ++ "." ++ substringFrom 1 ds)
  ++ "e+" ++ digits (n - 1).

Definition toStringLarge (m e : Z) : string :=
  let N := m * 2 ^ e in
  let below := if m =? 2 ^ 52 then 2 ^ (e - 1) else 2 ^ e in
  match shortest 17 N (2 * N - below) (2 * N + 2 ^ e) (Z.even m) (numDigits N) 1 with
  | Some (s, n, k) => exponential s n k
  | None => digits N
  end.

(** [x.toFixed(f)] (ECMA-262, Number.prototype.toFixed), for [0 <= f <= 100]. *)
Definition toFixed (f : nat) (x : number) : string :=
  match Prim2SF x with
  | S754_nan => "NaN"
  | S754_infinity s => if s then "-Infinity" else "Infinity"
  | S754_zero _ => fixedDigits f 0
  | S754_finite s m e =>
      (if s then "-" else "") ++
      (if (0 <=? e) && (10 ^ 21 <=? Z.pos m * 2 ^ e) then toStringLarge (Z.pos m) e
       else fixedDigits f (scaled (Z.pos m) e f))
  end.

(** The binary64 value nearest to [p / q] ([0 < p], [0 < q]), ties to even:
    the quotient is taken with at least 55 significant bits and a sticky bit
    for the remainder, then rounded once. *)
Definition nearest (p q : Z) : number :=
  let k := Z.max 0 (56 + Z.log2 q - Z.log2 p) in
  let n := p * 2 ^ k in
  let sticky := if n mod q =? 0 then 0 else 1 in
  match 2 * (n / q) + sticky with
  | Z.pos m => SF2Prim (binary_normalize prec emax (Z.pos m) (- k - 1) false)
  | _ => 0%float
  end.

Fixpoint readDigits (s : string) (acc : Z) (count : Z) : Z * Z * string :=
  match s with
  | String c rest =>
      let d := Z.of_nat (nat_of_ascii c) - 48 in
      if (0 <=? d) && (d <=? 9) then readDigits rest (10 * acc + d) (count + 1)
      else (acc, count, s)
  | EmptyString => (acc, count, s)
  end.

Definition readSign (s : string) : bool * string :=
  match s with
  | String "-" rest => (true, rest)
  | String "+" rest => (false, rest)
  | _ => (false, s)
  end.

Definition readExponent (s : string) : Z :=
  match s with
  | String c rest =>
      if (Ascii.eqb c "e" || Ascii.eqb c "E")%bool then
        let '(neg, rest') := readSign rest in
        let '(e, count, _) := readDigits rest' 0 0 in
        if count =? 0 then 0 else if neg then - e else e
      else 0
  | EmptyString => 0
  end.

(** [parseFloat s] for a string that starts with a StrDecimalLiteral (no
    leading white space): an optional sign, then [Infinity] or decimal digits
    with an optional fraction and exponent; anything else is [NaN]. *)
Definition parseFloat (s : string) : number :=
  let '(neg, body) := readSign s in
  let sign (x : number) := if neg then PrimFloat.opp x else x in
  if String.prefix "Infinity" body then sign PrimFloat.infinity
  else
    let '(ip, icount, rest) := readDigits body 0 0 in
    let '(mant, fcount, rest') :=
      match rest with
      | String "." frac => readDigits frac ip 0
      | _ => (ip, 0, rest)
      end in
    if (icount =? 0) && (fcount =? 0) then PrimFloat.nan
    else
      let e := readExponent rest' - fcount in
      if mant =? 0 then sign 0%float
      else if 0 <=? e then sign (nearest (mant * 10 ^ e) 1)
      else sign (nearest mant (10 ^ (- e))).

(** [Array.prototype.sort (compareFn)]: the sort is stable, and an element
    moves behind another only when [compareFn] says so with a positive
    number. *)
Section Sort.
Context {A : Type} (compareFn : A -> A -> Z).

Fixpoint insertSorted (x : A) (l : list A) : list A :=
  match l with
  | [] => [x]
  | y :: l' => if compareFn x y <=? 0 then x :: l else y :: insertSorted x l'
  end.

Definition sort (l : list A) : list A := fold_right insertSorted [] l.
End Sort.

End JsNumber.

(** ** Dates in the process's local time *)

Module LocalTime.

(** A [Date], by its time value in milliseconds. *)
Definition Date := Z.

Definition msPerDay : Z := 86400000.

(** The local calendar day a date falls on, counted from the epoch. *)
Definition localDay (tz : Z) (d : Date) : Z := (d + tz) / msPerDay.

(** [d.setHours(0, 0, 0, 0)] and [d.setHours(23, 59, 59, 999)] on a copy of
    [d]: the local date is kept and the time of day replaced. *)
Definition setHours (tz : Z) (d : Date) (h m s ms : Z) : Date :=
  d - (d + tz) mod msPerDay + (((h * 60 + m) * 60 + s) * 1000 + ms).

(** Year, month (1 to 12) and day of month of a day number, in the proleptic
    Gregorian calendar. *)
Definition civil (day : Z) : Z * Z * Z :=
  let z := day + 719468 in
  let era := z / 146097 in
  let doe := z - era * 146097 in
  let yoe := (doe - doe / 1460 + doe / 36524 - doe / 146096) / 365 in
  let doy := doe - (365 * yoe + yoe / 4 - yoe / 100) in
  let mp := (5 * doy + 2) / 153 in
  let d := doy - (153 * mp + 2) / 5 + 1 in
  let m := if mp <? 10 then mp + 3 else mp - 9 in
  (yoe + era * 400 + (if m <=? 2 then 1 else 0), m, d).

Definition monthShort (m : Z) : string :=
  nth (Z.to_nat (m - 1))
      ["Jan"; "Feb"; "Mar"; "Apr"; "May"; "Jun";
       "Jul"; "Aug"; "Sep"; "Oct"; "Nov"; "Dec"] "".

(** [d.toLocaleDateString("en-US", { month: "short", day: "numeric" })]:
    the short month name and the day of the month, and no year. *)
Definition toLocaleDateString (tz : Z) (d : Date) : string :=
  let '(_, m, dd) := civil (localDay tz d) in
  monthShort m ++ " " ++ JsNumber.digits dd.

End LocalTime.

(** ** The tables of [drizzle/schema.ts] *)

Module Schema.
Import JsNumber LocalTime.

(** [mysqlEnum("mood", ["excellent", "good", "neutral", "sad", "terrible"])] *)
Inductive Mood := excellent | good | neutral | sad | terrible.

Definition moodName (m : Mood) : string :=
  match m with
  | excellent => "excellent"
  | good => "good"
  | neutral => "neutral"
  | sad => "sad"
  | terrible => "terrible"
  end.

(** [mysqlEnum("period", ["week", "month", "year"])] *)
Inductive Period := week | month | year.

Definition periodName (p : Period) : string :=
  match p with week => "week" | month => "month" | year => "year" end.

(** [diary_entries] *)
Record DiaryEntry := {
  de_id : Z;
  de_userId : Z;
  de_title : option string;
  de_content : option string;
  de_mood : option Mood;
  de_moodIntensity : option number;
  de_date : Date
}.

(** [habits] *)
Record Habit := {
  h_id : Z;
  h_userId : Z;
  h_name : string;
  h_description : option string;
  h_color : option string;
  h_icon : option string;
  h_createdAt : Date;
  h_isActive : Z
}.

(** [habit_completions] *)
Record HabitCompletion := {
  hc_id : Z;
  hc_habitId : Z;
  hc_userId : Z;
  hc_date : Date;
  hc_completed : Z;
  hc_notes : option string;
  hc_completedAt : option Date
}.

(** [mood_history].  The column is NOT NULL; [None] stands for a row whose
    category reads as a falsy value, which the aggregation provides for. *)
Record MoodHistory := {
  mh_id : Z;
  mh_userId : Z;
  mh_date : Date;
  mh_mood : option Mood;
  mh_moodIntensity : number;
  mh_notes : option string
}.

(** [mood_insights].  The two JSON columns are kept as the values they
    encode: the counts in the key order of the object, and the [{id, name}]
    pairs of the habits. *)
Record MoodInsight := {
  mi_id : Z;
  mi_userId : Z;
  mi_period : Period;
  mi_periodStart : Date;
  mi_periodEnd : Date;
  mi_averageMoodScore : string;
  mi_dominantMood : string;
  mi_moodDistribution : list (string * Z);
  mi_topHabitsCorrelation : list (Z * string);
  mi_insights : string
}.

End Schema.

(** ** The query builder *)

Module Drizzle.

(** A table: its rows in insertion order and the next AUTO_INCREMENT value. *)
Record Table (R : Type) := { rows : list R; nextId : Z }.
Arguments rows {R} _.
Arguments nextId {R} _.

Definition emptyTable {R : Type} : Table R := {| rows := []; nextId := 1 |}.

(** [db.select().from(t).where(cond)] *)
Definition select {R : Type} (t : Table R) (where_ : R -> bool) : list R :=
  filter where_ (rows t).

(** [.limit(n)] *)
Definition limit {R : Type} (n : nat) (l : list R) : list R := firstn n l.

(** [db.insert(t).values(v)]: the row receives the next identifier. *)
Definition insert {R : Type} (t : Table R) (values : Z -> R) : Table R :=
  {| rows := rows t ++ [values (nextId t)]; nextId := nextId t + 1 |}.

(** [db.update(t).set(s).where(cond)] *)
Definition update {R : Type} (t : Table R) (set : R -> R) (where_ : R -> bool)
  : Table R :=
  {| rows := map (fun r => if where_ r then set r else r) (rows t);
     nextId := nextId t |}.

(** One key of the object given to [.set]: a key whose value is [undefined]
    is dropped from the statement, so the column keeps its value; to empty a
    column the caller has to pass [null]. *)
Definition assign {A : Type} (value : option A) (column : A) : A :=
  match value with
  | Some v => v
  | None => column
  end.

Definition isUndefined {A : Type} (value : option A) : bool :=
  match value with Some _ => false | None => true end.

(** [.orderBy(desc(key))] and [.orderBy(key)]; rows with equal keys keep the
    order of the table. *)
Definition orderByDesc {R : Type} (key : R -> Z) (l : list R) : list R :=
  JsNumber.sort (fun a b => key b - key a) l.

Definition orderBy {R : Type} (key : R -> Z) (l : list R) : list R :=
  JsNumber.sort (fun a b => key a - key b) l.

End Drizzle.

(** ** The database and the effects of a request *)

Module Effect.
Import Schema Drizzle.

Record DB := {
  diaryEntries : Table DiaryEntry;
  habits : Table Habit;
  habitCompletions : Table HabitCompletion;
  moodHistory : Table MoodHistory;
  moodInsights : Table MoodInsight
}.

Definition emptyDB : DB :=
  {| diaryEntries := emptyTable; habits := emptyTable;
     habitCompletions := emptyTable; moodHistory := emptyTable;
     moodInsights := emptyTable |}.

Definition withDiaryEntries (db : DB) (t : Table DiaryEntry) : DB :=
  {| diaryEntries := t; habits := habits db;
     habitCompletions := habitCompletions db; moodHistory := moodHistory db;
     moodInsights := moodInsights db |}.

Definition withHabits (db : DB) (t : Table Habit) : DB :=
  {| diaryEntries := diaryEntries db; habits := t;
     habitCompletions := habitCompletions db; moodHistory := moodHistory db;
     moodInsights := moodInsights db |}.

Definition withHabitCompletions (db : DB) (t : Table HabitCompletion) : DB :=
  {| diaryEntries := diaryEntries db; habits := habits db;
     habitCompletions := t; moodHistory := moodHistory db;
     moodInsights := moodInsights db |}.

Definition withMoodHistory (db : DB) (t : Table MoodHistory) : DB :=
  {| diaryEntries := diaryEntries db; habits := habits db;
     habitCompletions := habitCompletions db; moodHistory := t;
     moodInsights := moodInsights db |}.

Definition withMoodInsights (db : DB) (t : Table MoodInsight) : DB :=
  {| diaryEntries := diaryEntries db; habits := habits db;
     habitCompletions := habitCompletions db; moodHistory := moodHistory db;
     moodInsights := t |}.

(** What [getDb ()] resolves to: the database behind the handle, or [None]
    for [null]. *)
Definition World := option DB.

Inductive TRPCCode := BAD_REQUEST | FORBIDDEN | INTERNAL_SERVER_ERROR.

(** What a request can throw: [new Error(message)], or
    [new TRPCError({ code, message })].  The message of the error raised for
    an input the validator refuses is the validator's issue list and is left
    out ([None]). *)
Inductive Exn :=
| JsError (message : string)
| TRPCError (code : TRPCCode) (message : option string).

Inductive Outcome (A : Type) :=
| Returned (a : A)
| Thrown (e : Exn).
Arguments Returned {A} a.
Arguments Thrown {A} e.

(** A request: from the world it starts in to its outcome and the world it
    leaves. *)
Definition M (A : Type) : Type := World -> Outcome A * World.

Definition ret {A : Type} (a : A) : M A := fun w => (Returned a, w).

Definition throw {A : Type} (e : Exn) : M A := fun w => (Thrown e, w).

Definition bind {A B : Type} (c : M A) (k : A -> M B) : M B :=
  fun w =>
    match c w with
    | (Returned a, w') => k a w'
    | (Thrown e, w') => (Thrown e, w')
    end.

Definition getDb : M (option DB) := fun w => (Returned w, w).

(** A statement sent through the handle replaces the database behind it. *)
Definition commit (db : DB) : M unit := fun _ => (Returned tt, Some db).

Declare Scope request_scope.
Delimit Scope request_scope with request.
Notation "x <- c ;; k" := (bind c (fun x => k))
  (at level 61, c at next level, right associativity) : request_scope.
Notation "c ;; k" := (bind c (fun _ => k))
  (at level 61, right associativity) : request_scope.

End Effect.

(** ** Objects used as string-keyed maps

    [Record<string, number>]: the entries in the order their keys were first
    assigned, which is the order [Object.entries] lists them in.  (No key of
    this program is a canonical array index, the one case a JavaScript object
    orders differently.) *)

Module JsObject.

Fixpoint get {V : Type} (key : string) (o : list (string * V)) : option V :=
  match o with
  | [] => None
  | (k, v) :: o' => if String.eqb k key then Some v else get key o'
  end.

(** [o[key] = v] *)
Fixpoint set {V : Type} (key : string) (v : V) (o : list (string * V))
  : list (string * V) :=
  match o with
  | [] => [(key, v)]
  | (k, v') :: o' =>
      if String.eqb k key then (k, v) :: o' else (k, v') :: set key v o'
  end.

(** [o[key] || 0] for integer counts *)
Definition getOrZero (key : string) (o : list (string * Z)) : Z :=
  match get key o with
  | Some c => c
  | None => 0
  end.

End JsObject.

(** ** [server/db.ts] *)

Module Db.
Import JsNumber LocalTime Schema Drizzle Effect.
Local Open Scope request_scope.

Definition notAvailable : Exn := JsError "Database not available".

(** *** Diary entries *)

Definition getDiaryEntryByDate (tz : Z) (userId : Z) (date : Date)
  : M (option DiaryEntry) :=
  db <- getDb ;;
  match db with
  | None => ret None
  | Some db =>
      let startOfDay := setHours tz date 0 0 0 0 in
      let endOfDay := setHours tz date 23 59 59 999 in
      let result :=
        limit 1 (select (diaryEntries db) (fun r =>
          (de_userId r =? userId) && (startOfDay <=? de_date r)
          && (de_date r <=? endOfDay))) in
      ret (hd_error result)
  end.

(** The keys a caller passes in the [Partial] given to [updateDiaryEntry];
    [None] is a key left [undefined]. *)
Record DiaryUpdates := {
  set_title : option string;
  set_content : option string
}.

(** [.set] refuses an object all of whose keys are [undefined]. *)
Definition noValuesToSet : Exn := JsError "No values to set".

Definition updateDiaryEntry (id : Z) (updates : DiaryUpdates) : M unit :=
  db <- getDb ;;
  match db with
  | None => throw notAvailable
  | Some db =>
      if isUndefined (set_title updates) && isUndefined (set_content updates)
      then throw noValuesToSet
      else
        commit (withDiaryEntries db
          (update (diaryEntries db)
             (fun r =>
                {| de_id := de_id r;
                   de_userId := de_userId r;
                   de_title := assign (option_map Some (set_title updates)) (de_title r);
                   de_content := assign (option_map Some (set_content updates)) (de_content r);
                   de_mood := de_mood r;
                   de_moodIntensity := de_moodIntensity r;
                   de_date := de_date r |})
             (fun r => de_id r =? id)))
  end.

(** *** Habits *)

Definition getHabitsByUser (userId : Z) : M (list Habit) :=
  db <- getDb ;;
  match db with
  | None => ret []
  | Some db =>
      ret (orderBy h_createdAt
             (select (habits db) (fun r =>
                (h_userId r =? userId) && (h_isActive r =? 1))))
  end.

(** The keys a caller passes in the [Partial] given to [updateHabit]. *)
Record HabitUpdates := {
  set_name : option string;
  set_description : option string;
  set_color : option string;
  set_icon : option string;
  set_isActive : option Z
}.

Definition updateHabit (id : Z) (updates : HabitUpdates) : M unit :=
  db <- getDb ;;
  match db with
  | None => throw notAvailable
  | Some db =>
      if isUndefined (set_name updates) && isUndefined (set_description updates)
         && isUndefined (set_color updates) && isUndefined (set_icon updates)
         && isUndefined (set_isActive updates)
      then throw noValuesToSet
      else
        commit (withHabits db
          (update (habits db)
             (fun r =>
                {| h_id := h_id r;
                   h_userId := h_userId r;
                   h_name := assign (set_name updates) (h_name r);
                   h_description :=
                     assign (option_map Some (set_description updates)) (h_description r);
                   h_color := assign (option_map Some (set_color updates)) (h_color r);
                   h_icon := assign (option_map Some (set_icon updates)) (h_icon r);
                   h_createdAt := h_createdAt r;
                   h_isActive := assign (set_isActive updates) (h_isActive r) |})
             (fun r => h_id r =? id)))
  end.

(** *** Habit completions *)

(** The [where] of the look-up in [upsertHabitCompletion]. *)
Definition habitCompletionOn (tz : Z) (habitId userId : Z) (date : Date)
  (r : HabitCompletion) : bool :=
  let startOfDay := setHours tz date 0 0 0 0 in
  let endOfDay := setHours tz date 23 59 59 999 in
  (hc_habitId r =? habitId) && (hc_userId r =? userId)
  && (startOfDay <=? hc_date r) && (hc_date r <=? endOfDay).

(** [now] is the value of the [new Date()] in the statement. *)
Definition upsertHabitCompletion (tz : Z) (now : Date)
  (habitId userId : Z) (date : Date) (completed : bool) : M unit :=
  db <- getDb ;;
  match db with
  | None => throw notAvailable
  | Some db =>
      let existing :=
        limit 1 (select (habitCompletions db)
                   (habitCompletionOn tz habitId userId date)) in
      match existing with
      | first :: _ =>
          commit (withHabitCompletions db
            (update (habitCompletions db)
               (fun r =>
                  {| hc_id := hc_id r;
                     hc_habitId := hc_habitId r;
                     hc_userId := hc_userId r;
                     hc_date := hc_date r;
                     hc_completed := if completed then 1 else 0;
                     hc_notes := hc_notes r;
                     hc_completedAt := if completed then Some now else None |})
               (fun r => hc_id r =? hc_id first)))
      | [] =>
          commit (withHabitCompletions db
            (insert (habitCompletions db)
               (fun id =>
                  {| hc_id := id;
                     hc_habitId := habitId;
                     hc_userId := userId;
                     hc_date := date;
                     hc_completed := if completed then 1 else 0;
                     hc_notes := None;
                     hc_completedAt := if completed then Some now else None |})))
      end
  end.

(** *** Mood history *)

Definition getMoodHistoryByDateRange (userId : Z) (startDate endDate : Date)
  : M (list MoodHistory) :=
  db <- getDb ;;
  match db with
  | None => ret []
  | Some db =>
      ret (orderByDesc mh_date
             (select (moodHistory db) (fun r =>
                (mh_userId r =? userId) && (startDate <=? mh_date r)
                && (mh_date r <=? endDate))))
  end.

(** The [where] of the day look-up, shared by [getMoodHistoryByDate] and
    [upsertMoodHistory]. *)
Definition moodHistoryOn (tz : Z) (userId : Z) (date : Date) (r : MoodHistory)
  : bool :=
  let startOfDay := setHours tz date 0 0 0 0 in
  let endOfDay := setHours tz date 23 59 59 999 in
  (mh_userId r =? userId) && (startOfDay <=? mh_date r) && (mh_date r <=? endOfDay).

Definition getMoodHistoryByDate (tz : Z) (userId : Z) (date : Date)
  : M (option MoodHistory) :=
  db <- getDb ;;
  match db with
  | None => ret None
  | Some db =>
      let result := limit 1 (select (moodHistory db) (moodHistoryOn tz userId date)) in
      ret (hd_error result)
  end.

(** [mood] arrives as a string the router has checked against the enum of the
    column.  [notes] is [None] when the caller gives none ([undefined]): the
    insert then leaves the column NULL, and the update, by the rule of
    [assign], leaves it as it is. *)
Definition upsertMoodHistory (tz : Z) (userId : Z) (date : Date) (mood : Mood)
  (moodIntensity : number) (notes : option string) : M unit :=
  db <- getDb ;;
  match db with
  | None => throw notAvailable
  | Some db =>
      let existing := limit 1 (select (moodHistory db) (moodHistoryOn tz userId date)) in
      match existing with
      | first :: _ =>
          commit (withMoodHistory db
            (update (moodHistory db)
               (fun r =>
                  {| mh_id := mh_id r;
                     mh_userId := mh_userId r;
                     mh_date := mh_date r;
                     mh_mood := Some mood;
                     mh_moodIntensity := moodIntensity;
                     mh_notes := assign (option_map Some notes) (mh_notes r) |})
               (fun r => mh_id r =? mh_id first)))
      | [] =>
          commit (withMoodHistory db
            (insert (moodHistory db)
               (fun id =>
                  {| mh_id := id;
                     mh_userId := userId;
                     mh_date := date;
                     mh_mood := Some mood;
                     mh_moodIntensity := moodIntensity;
                     mh_notes := notes |})))
      end
  end.

(** *** Mood insights *)

Definition createMoodInsight (insight : Z -> MoodInsight) : M unit :=
  db <- getDb ;;
  match db with
  | None => throw notAvailable
  | Some db => commit (withMoodInsights db (insert (moodInsights db) insight))
  end.

End Db.

(** ** The procedures of [appRouter]

    A procedure is given the identifier of the signed-in user ([ctx.user.id]:
    every procedure below is a [protectedProcedure]) and its input.  Where a
    property depends on what the validator lets through, the input is the raw
    value and the validator is applied here; elsewhere the input has the type
    the validator guarantees. *)

Module AppRouter.
Import JsNumber LocalTime Schema Drizzle Effect Db.
Local Open Scope request_scope.


(** *** diary *)

Record DiaryUpdateInput := {
  du_id : Z;
  du_title : option string;
  du_content : option string
}.

(** [diary.update]; [now] is the value of its [new Date()]. *)
Definition diary_update (tz : Z) (now : Date) (user : Z) (input : DiaryUpdateInput)
  : M unit :=
  entry <- getDiaryEntryByDate tz user now ;;
  match entry with
  | None => throw (TRPCError FORBIDDEN None)
  | Some e =>
      if negb (de_id e =? du_id input) then throw (TRPCError FORBIDDEN None)
      else updateDiaryEntry (du_id input)
             {| set_title := du_title input; set_content := du_content input |}
  end.

(** *** habits *)

Record HabitUpdateInput := {
  hu_id : Z;
  hu_name : option string;
  hu_description : option string;
  hu_color : option string;
  hu_icon : option string
}.

(** [habits.update] *)
Definition habits_update (user : Z) (input : HabitUpdateInput) : M unit :=
  updateHabit (hu_id input)
    {| set_name := hu_name input; set_description := hu_description input;
       set_color := hu_color input; set_icon := hu_icon input;
       set_isActive := None |}.

(** [habits.archive] *)
Definition habits_archive (user : Z) (id : Z) : M unit :=
  updateHabit id
    {| set_name := None; set_description := None; set_color := None;
       set_icon := None; set_isActive := Some 0 |}.

(** *** habitCompletions *)

(** [habitCompletions.toggle] *)
Definition habitCompletions_toggle (tz : Z) (now : Date) (user : Z)
  (habitId : Z) (date : Date) (completed : bool) : M unit :=
  upsertHabitCompletion tz now habitId user date completed.

(** *** mood *)

(** [mood.getByDate] *)
Definition mood_getByDate (tz : Z) (user : Z) (date : Date)
  : M (option MoodHistory) :=
  getMoodHistoryByDate tz user date.

(** [mood.getByRange] *)
Definition mood_getByRange (user : Z) (startDate endDate : Date)
  : M (list MoodHistory) :=
  getMoodHistoryByDateRange user startDate endDate.





(** *** insights *)

Record GenerateInsightsInput := {
  gi_period : Period;
  gi_periodStart : Date;
  gi_periodEnd : Date
}.

(** [m.mood || "unknown"] *)
Definition moodKey (m : MoodHistory) : string :=
  match mh_mood m with
  | Some c => moodName c
  | None => "unknown"
  end.

(** [moodCounts], after the [forEach]: it starts as the empty object. *)
Definition moodCounts (moods : list MoodHistory) : list (string * Z) :=
  fold_left
    (fun counts m =>
       JsObject.set (moodKey m) (JsObject.getOrZero (moodKey m) counts + 1) counts)
    moods [].

(** [totalIntensity], after the [forEach]. *)
Definition totalIntensity (moods : list MoodHistory) : number :=
  fold_left
    (fun total m => PrimFloat.add total (orZero (mh_moodIntensity m)))
    moods 0%float.

Definition averageMoodScore (moods : list MoodHistory) : string :=
  toFixed 2
    (PrimFloat.div (totalIntensity moods) (ofZ (Z.of_nat (List.length moods)))).

(** [Object.entries(moodCounts).sort(([, a], [, b]) => b - a)[0]?.[0] || "neutral"] *)
Definition dominantOf (counts : list (string * Z)) : string :=
  match sort (fun x y => snd y - snd x) counts with
  | [] => "neutral"
  | (k, _) :: _ => if String.eqb k "" then "neutral" else k
  end.

Definition dominantMood (moods : list MoodHistory) : string :=
  dominantOf (moodCounts moods).

Definition insightsText (period : Period) (moods : list MoodHistory) : string :=
  "During this " ++ periodName period ++ ", your dominant mood was "
  ++ dominantMood moods ++ " with an average intensity of "
  ++ averageMoodScore moods ++ "/10. You tracked "
  ++ digits (Z.of_nat (List.length moods)) ++ " mood entries.".

(** The object [insight] handed to [createMoodInsight]. *)
Definition insight (user : Z) (input : GenerateInsightsInput)
  (moods : list MoodHistory) (habits : list Habit) (id : Z) : MoodInsight :=
  {| mi_id := id;
     mi_userId := user;
     mi_period := gi_period input;
     mi_periodStart := gi_periodStart input;
     mi_periodEnd := gi_periodEnd input;
     mi_averageMoodScore := averageMoodScore moods;
     mi_dominantMood := dominantMood moods;
     mi_moodDistribution := moodCounts moods;
     mi_topHabitsCorrelation :=
       map (fun h => (h_id h, h_name h)) (firstn 3 habits);
     mi_insights := insightsText (gi_period input) moods |}.

Definition noMoodData : Exn :=
  TRPCError BAD_REQUEST (Some "No mood data available for this period").

(** [insights.generateInsights] *)
Definition insights_generateInsights (user : Z) (input : GenerateInsightsInput)
  : M unit :=
  moods <- getMoodHistoryByDateRange user (gi_periodStart input) (gi_periodEnd input) ;;
  habits <- getHabitsByUser user ;;
  if (List.length moods =? 0)%nat then throw noMoodData
  else createMoodInsight (insight user input moods habits).

End AppRouter.

(** ** The statistics of [InsightsPage.tsx]

    Computed in the browser over the rows [mood.getByRange] returned; [tz] is
    the browser's offset. *)

Module InsightsPage.
Import JsNumber LocalTime Schema.

Definition initialCounts : list (string * Z) :=
  [("excellent", 0); ("good", 0); ("neutral", 0); ("sad", 0); ("terrible", 0)].

Definition moodCounts (moods : list MoodHistory) : list (string * Z) :=
  fold_left
    (fun counts m =>
       match mh_mood m with
       | Some c =>
           JsObject.set (moodName c) (JsObject.getOrZero (moodName c) counts + 1) counts
       | None => counts
       end)
    moods initialCounts.

Definition totalIntensity (moods : list MoodHistory) : number :=
  fold_left
    (fun total m => PrimFloat.add total (orZero (mh_moodIntensity m)))
    moods 0%float.

Definition averageIntensity (moods : list MoodHistory) : string :=
  if (0 <? List.length moods)%nat
  then toFixed 1
         (PrimFloat.div (totalIntensity moods) (ofZ (Z.of_nat (List.length moods))))
  else "0".

Definition dominantMood (moods : list MoodHistory) : string :=
  match sort (fun x y => snd y - snd x) (moodCounts moods) with
  | [] => "neutral"
  | (k, _) :: _ => if String.eqb k "" then "neutral" else k
  end.

(** [mood.charAt(0).toUpperCase() + mood.slice(1)], on ASCII keys. *)
Definition capitalize (s : string) : string :=
  match s with
  | EmptyString => EmptyString
  | String c rest =>
      let n := nat_of_ascii c in
      String (if (Nat.leb 97 n && Nat.leb n 122)%bool then ascii_of_nat (n - 32) else c)
             rest
  end.

Definition chartData (moods : list MoodHistory) : list (string * Z) :=
  map (fun e => (capitalize (fst e), snd e)) (moodCounts moods).

(** The key a row is filed under in [dailyData]. *)
Definition dayLabel (tz : Z) (m : MoodHistory) : string :=
  toLocaleDateString tz (mh_date m).

Definition dailyData (tz : Z) (moods : list MoodHistory) : list (string * number) :=
  fold_left
    (fun daily m =>
       let date := dayLabel tz m in
       let soFar := match JsObject.get date daily with
                    | Some x => orZero x
                    | None => 0%float
                    end in
       JsObject.set date (PrimFloat.add soFar (orZero (mh_moodIntensity m))) daily)
    moods [].

Definition trendData (tz : Z) (moods : list MoodHistory) : list (string * number) :=
  map (fun e =>
         let n := List.length
                    (filter (fun m => String.eqb (dayLabel tz m) (fst e)) moods) in
         let divisor := if (n =? 0)%nat then 1 else Z.of_nat n in
         (fst e, parseFloat (toFixed 1 (PrimFloat.div (snd e) (ofZ divisor)))))
      (dailyData tz moods).

End InsightsPage.

(** ** What the properties speak of *)

Module Observations.
Import JsNumber LocalTime Schema Drizzle Effect Db AppRouter.


(** The stored completions of a habit by a user on the local day of [date]. *)
Definition completionsOn (tz : Z) (db : DB) (habitId userId : Z) (date : Date)
  : list HabitCompletion :=
  select (habitCompletions db) (habitCompletionOn tz habitId userId date).

(** A mood record with a category. *)
Definition moodRecord (id userId : Z) (date : Date) (mood : Mood)
  (moodIntensity : number) (notes : option string) : MoodHistory :=
  {| mh_id := id; mh_userId := userId; mh_date := date; mh_mood := Some mood;
     mh_moodIntensity := moodIntensity; mh_notes := notes |}.

(** A completion record as [upsertHabitCompletion] writes it at [now]. *)
Definition completionRecord (id habitId userId : Z) (date : Date)
  (completed : bool) (now : Date) : HabitCompletion :=
  {| hc_id := id; hc_habitId := habitId; hc_userId := userId; hc_date := date;
     hc_completed := if completed then 1 else 0; hc_notes := None;
     hc_completedAt := if completed then Some now else None |}.

(** A habit of user 1. *)
Definition morningRun (isActive : Z) : Habit :=
  {| h_id := 1; h_userId := 1; h_name := "Morning run"; h_description := None;
     h_color := None; h_icon := None; h_createdAt := 0; h_isActive := isActive |}.

Definition keys {V : Type} (o : list (string * V)) : list string := map fst o.

(** How many of the records carry the category key [k]. *)
Definition occurrences (k : string) (moods : list MoodHistory) : Z :=
  Z.of_nat (List.length (filter (fun m => String.eqb (moodKey m) k) moods)).

(** One step of the [forEach] of [insights.generateInsights] that counts. *)
Definition count1 (counts : list (string * Z)) (m : MoodHistory) : list (string * Z) :=
  JsObject.set (moodKey m) (JsObject.getOrZero (moodKey m) counts + 1) counts.

(** The first entry among those with the greatest count. *)
Fixpoint firstGreatest (o : list (string * Z)) : option (string * Z) :=
  match o with
  | [] => None
  | x :: o' =>
      match firstGreatest o' with
      | None => Some x
      | Some y => if snd y <=? snd x then Some x else Some y
      end
  end.

(** How many of the records carry the category named [k] (insights page). *)
Definition pageOccurrences (k : string) (moods : list MoodHistory) : Z :=
  Z.of_nat (List.length
              (filter (fun m => match mh_mood m with
                                | Some c => String.eqb (moodName c) k
                                | None => false
                                end) moods)).

(** One step of the [forEach] of the insights page that counts. *)
Definition pageCount1 (counts : list (string * Z)) (m : MoodHistory)
  : list (string * Z) :=
  match mh_mood m with
  | Some c => JsObject.set (moodName c) (JsObject.getOrZero (moodName c) counts + 1) counts
  | None => counts
  end.

(** The records filed under a label of the trend. *)
Definition groupOf (tz : Z) (label : string) (moods : list MoodHistory)
  : list MoodHistory :=
  filter (fun m => String.eqb (InsightsPage.dayLabel tz m) label) moods.

(** What [dailyData] holds for a group: the intensities added up in the order
    of the list, each passed through [|| 0], as is the running total. *)
Definition groupTotal (group : list MoodHistory) : number :=
  fold_left
    (fun total m => PrimFloat.add (orZero total) (orZero (mh_moodIntensity m)))
    group 0%float.

(** One step of the [forEach] that fills [dailyData]. *)
Definition daily1 (tz : Z) (daily : list (string * number)) (m : MoodHistory)
  : list (string * number) :=
  let date := InsightsPage.dayLabel tz m in
  let soFar := match JsObject.get date daily with
               | Some x => orZero x
               | None => 0%float
               end in
  JsObject.set date (PrimFloat.add soFar (orZero (mh_moodIntensity m))) daily.

Definition startOf (entry : option number) : number :=
  match entry with
  | Some x => x
  | None => 0%float
  end.

End Observations.

(** ** The rest of [server/db.ts] *)

Module DbRest.
Import JsNumber LocalTime Schema Drizzle Effect Db.
Local Open Scope request_scope.

(** *** Diary entries *)

(** [limit] and [offset] are the non-negative integers the statement needs. *)
Definition getDiaryEntries (userId : Z) (limit_ offset : nat) : M (list DiaryEntry) :=
  db <- getDb ;;
  match db with
  | None => ret []
  | Some db =>
      ret (limit limit_
             (skipn offset
                (orderByDesc de_date
                   (select (diaryEntries db) (fun r => de_userId r =? userId)))))
  end.

(** The keys a caller passes to [createDiaryEntry]; the columns left out
    ([mood], [moodIntensity]) take their default, NULL. *)
Record NewDiaryEntry := {
  nd_userId : Z;
  nd_title : option string;
  nd_content : option string;
  nd_date : Date
}.

Definition createDiaryEntry (entry : NewDiaryEntry) : M unit :=
  db <- getDb ;;
  match db with
  | None => throw notAvailable
  | Some db =>
      commit (withDiaryEntries db
        (insert (diaryEntries db)
           (fun id =>
              {| de_id := id;
                 de_userId := nd_userId entry;
                 de_title := nd_title entry;
                 de_content := nd_content entry;
                 de_mood := None;
                 de_moodIntensity := None;
                 de_date := nd_date entry |})))
  end.

(** *** Habits *)

(** The keys a caller passes to [createHabit]. *)
Record NewHabit := {
  nh_userId : Z;
  nh_name : string;
  nh_description : option string;
  nh_color : option string;
  nh_icon : option string
}.

(** [createdAt] and [isActive] take their defaults: the time of the
    statement, [now], and 1. *)
Definition createHabit (now : Date) (habit : NewHabit) : M unit :=
  db <- getDb ;;
  match db with
  | None => throw notAvailable
  | Some db =>
      commit (withHabits db
        (insert (habits db)
           (fun id =>
              {| h_id := id;
                 h_userId := nh_userId habit;
                 h_name := nh_name habit;
                 h_description := nh_description habit;
                 h_color := nh_color habit;
                 h_icon := nh_icon habit;
                 h_createdAt := now;
                 h_isActive := 1 |})))
  end.

(** *** Habit completions *)

Definition getHabitCompletionsByDate (tz : Z) (userId : Z) (date : Date)
  : M (list HabitCompletion) :=
  db <- getDb ;;
  match db with
  | None => ret []
  | Some db =>
      let startOfDay := setHours tz date 0 0 0 0 in
      let endOfDay := setHours tz date 23 59 59 999 in
      ret (select (habitCompletions db) (fun r =>
             (hc_userId r =? userId) && (startOfDay <=? hc_date r)
             && (hc_date r <=? endOfDay)))
  end.

Definition getHabitCompletionsByHabitAndDateRange (habitId : Z)
  (startDate endDate : Date) : M (list HabitCompletion) :=
  db <- getDb ;;
  match db with
  | None => ret []
  | Some db =>
      ret (orderBy hc_date
             (select (habitCompletions db) (fun r =>
                (hc_habitId r =? habitId) && (startDate <=? hc_date r)
                && (hc_date r <=? endDate))))
  end.

(** *** Mood insights *)

Definition periodEqb (p q : Period) : bool :=
  match p, q with
  | week, week | month, month | year, year => true
  | _, _ => false
  end.

Definition getMoodInsightsByPeriod (userId : Z) (period : Period)
  (periodStart periodEnd : Date) : M (option MoodInsight) :=
  db <- getDb ;;
  match db with
  | None => ret None
  | Some db =>
      let result :=
        limit 1 (select (moodInsights db) (fun r =>
          (mi_userId r =? userId) && periodEqb (mi_period r) period
          && (periodStart <=? mi_periodStart r) && (mi_periodEnd r <=? periodEnd))) in
      ret (hd_error result)
  end.

End DbRest.

(** ** The [users] table and its two functions

    The table is read and written by [upsertUser] and [getUserByOpenId] only,
    and is kept apart from [DB]: the world of these two functions is the table
    behind the handle, or [None] without a handle.  [openId] carries a unique
    index; the engine's comparison of two strings is taken to be equality. *)

Module Users.
Import LocalTime Drizzle Effect.

(** [mysqlEnum("role", ["user", "admin"])] *)
Inductive Role := roleUser | roleAdmin.

Record User := {
  u_id : Z;
  u_openId : string;
  u_name : option string;
  u_email : option string;
  u_loginMethod : option string;
  u_role : Role;
  u_lastSignedIn : Date
}.

(** [InsertUser], as far as [upsertUser] reads it.  For a text field [None] is
    [undefined], [Some None] is [null] and [Some (Some s)] a string. *)
Record InsertUser := {
  iu_openId : string;
  iu_name : option (option string);
  iu_email : option (option string);
  iu_loginMethod : option (option string);
  iu_lastSignedIn : option Date;
  iu_role : option Role
}.

Definition UsersWorld := option (Table User).

(** [values] and [updateSet] have the same keys apart from [openId]; a key
    is [None] until it is assigned. *)
Record Assignments := {
  a_name : option (option string);
  a_email : option (option string);
  a_loginMethod : option (option string);
  a_lastSignedIn : option Date;
  a_role : option Role
}.

(** [assignNullable], for each of the three text fields, and the two
    conditionals that follow it: what [values] and [updateSet] both hold
    before the two defaults for [lastSignedIn] are filled in. *)
Definition assigned (ownerOpenId : string) (u : InsertUser) : Assignments :=
  {| a_name := iu_name u;
     a_email := iu_email u;
     a_loginMethod := iu_loginMethod u;
     a_lastSignedIn := iu_lastSignedIn u;
     a_role :=
       match iu_role u with
       | Some r => Some r
       | None => if String.eqb (iu_openId u) ownerOpenId then Some roleAdmin else None
       end |}.

(** [Object.keys(updateSet).length === 0] *)
Definition noKeys (a : Assignments) : bool :=
  isUndefined (a_name a) && isUndefined (a_email a) && isUndefined (a_loginMethod a)
  && isUndefined (a_lastSignedIn a) && isUndefined (a_role a).

(** The row [values] inserts: a text column left out is NULL, [role] left out
    is "user", and [lastSignedIn] is the one given or [now]. *)
Definition insertedUser (now : Date) (openId : string) (a : Assignments) (id : Z)
  : User :=
  {| u_id := id;
     u_openId := openId;
     u_name := assign (a_name a) None;
     u_email := assign (a_email a) None;
     u_loginMethod := assign (a_loginMethod a) None;
     u_role := assign (a_role a) roleUser;
     u_lastSignedIn := assign (a_lastSignedIn a) now |}.

(** What [updateSet] does to the row that holds the key already. *)
Definition updatedUser (now : Date) (a : Assignments) (r : User) : User :=
  {| u_id := u_id r;
     u_openId := u_openId r;
     u_name := assign (a_name a) (u_name r);
     u_email := assign (a_email a) (u_email r);
     u_loginMethod := assign (a_loginMethod a) (u_loginMethod r);
     u_role := assign (a_role a) (u_role r);
     u_lastSignedIn :=
       if noKeys a then now else assign (a_lastSignedIn a) (u_lastSignedIn r) |}.

(** [db.insert(users).values(values).onDuplicateKeyUpdate({ set: updateSet })]:
    the row that holds the unique key is updated, and without one the values
    are inserted.  (Whether the engine advances the counter on the first path
    is not modelled; nothing below reads a user's [id].) *)
Definition insertOrUpdate (now : Date) (openId : string) (a : Assignments)
  (t : Table User) : Table User :=
  if existsb (fun r => String.eqb (u_openId r) openId) (rows t)
  then update t (updatedUser now a) (fun r => String.eqb (u_openId r) openId)
  else insert t (insertedUser now openId a).

(** [upsertUser]; [ownerOpenId] is [ENV.ownerOpenId] and [now] the value of
    its [new Date()]. *)
Definition upsertUser (ownerOpenId : string) (now : Date) (u : InsertUser)
  (w : UsersWorld) : Outcome unit * UsersWorld :=
  if String.eqb (iu_openId u) ""
  then (Thrown (JsError "User openId is required for upsert"), w)
  else
    match w with
    | None => (Returned tt, None)
    | Some t =>
        (Returned tt,
         Some (insertOrUpdate now (iu_openId u) (assigned ownerOpenId u) t))
    end.

Definition getUserByOpenId (openId : string) (w : UsersWorld)
  : Outcome (option User) * UsersWorld :=
  match w with
  | None => (Returned None, None)
  | Some t =>
      let result :=
        limit 1 (select t (fun r => String.eqb (u_openId r) openId)) in
      (Returned (hd_error result), w)
  end.

End Users.

(** ** The rest of the procedures of [appRouter] *)

Module AppRouterRest.
Import JsNumber LocalTime Schema Drizzle Effect Db DbRest AppRouter.
Local Open Scope request_scope.

(** [diary.list] *)
Definition diary_list (user : Z) (limit_ offset : nat) : M (list DiaryEntry) :=
  getDiaryEntries user limit_ offset.

(** [diary.getByDate] *)
Definition diary_getByDate (tz : Z) (user : Z) (date : Date) : M (option DiaryEntry) :=
  getDiaryEntryByDate tz user date.

Record DiaryCreateInput := {
  dc_title : option string;
  dc_content : option string;
  dc_date : Date
}.

(** [diary.create] *)
Definition diary_create (user : Z) (input : DiaryCreateInput) : M unit :=
  createDiaryEntry
    {| nd_userId := user; nd_title := dc_title input;
       nd_content := dc_content input; nd_date := dc_date input |}.

(** [habits.list] *)
Definition habits_list (user : Z) : M (list Habit) := getHabitsByUser user.

Record HabitCreateInput := {
  hcr_name : string;
  hcr_description : option string;
  hcr_color : option string;
  hcr_icon : option string
}.

(** [habits.create] *)
Definition habits_create (now : Date) (user : Z) (input : HabitCreateInput) : M unit :=
  createHabit now
    {| nh_userId := user; nh_name := hcr_name input;
       nh_description := hcr_description input; nh_color := hcr_color input;
       nh_icon := hcr_icon input |}.

(** [habitCompletions.getByDate] *)
Definition habitCompletions_getByDate (tz : Z) (user : Z) (date : Date)
  : M (list HabitCompletion) :=
  getHabitCompletionsByDate tz user date.

(** [habitCompletions.getByHabitAndRange] *)
Definition habitCompletions_getByHabitAndRange (user : Z) (habitId : Z)
  (startDate endDate : Date) : M (list HabitCompletion) :=
  getHabitCompletionsByHabitAndDateRange habitId startDate endDate.

(** [insights.getByPeriod] *)
Definition insights_getByPeriod (user : Z) (input : GenerateInsightsInput)
  : M (option MoodInsight) :=
  getMoodInsightsByPeriod user (gi_period input) (gi_periodStart input)
    (gi_periodEnd input).

End AppRouterRest.

(** ** What the pages compute from the answers *)

Module Pages.
Import JsNumber LocalTime Schema.

(** [HabitsPage.tsx]: [isHabitCompleted], over the data of
    [habitCompletions.getByDate]. *)
Definition isHabitCompleted (completions : list HabitCompletion) (habitId : Z) : bool :=
  existsb (fun c => (hc_habitId c =? habitId) && (hc_completed c =? 1)) completions.

(** [HabitsPage.tsx]: [completedCount] *)
Definition completedCount (completions : list HabitCompletion) : nat :=
  List.length (filter (fun c => hc_completed c =? 1) completions).

(** [l.slice(-n)] *)
Definition sliceLast {A : Type} (n : nat) (l : list A) : list A :=
  skipn (List.length l - n) l.

(** [InsightsPage.tsx]: the data of the bar chart, [trendData.slice(-7)]. *)
Definition shownTrend (tz : Z) (moods : list MoodHistory) : list (string * number) :=
  sliceLast 7 (InsightsPage.trendData tz moods).

End Pages.

(** ** Conditions on the stored state *)

Module Invariants.
Import JsNumber LocalTime Schema Drizzle Effect Db.

(** The identifiers of a table are those AUTO_INCREMENT gave out: pairwise
    different and below the counter. *)
Definition wellNumbered {R : Type} (id : R -> Z) (t : Table R) : Prop :=
  NoDup (map id (rows t)) /\ Forall (fun r => id r < nextId t) (rows t).

Definition sumCounts (o : list (string * Z)) : Z :=
  fold_right (fun e total => snd e + total) 0 o.

(** What the [.set] of [upsertMoodHistory] makes of a row. *)
Definition moodUpdate (mood : Mood) (moodIntensity : number) (notes : option string)
  (r : MoodHistory) : MoodHistory :=
  {| mh_id := mh_id r; mh_userId := mh_userId r; mh_date := mh_date r;
     mh_mood := Some mood; mh_moodIntensity := moodIntensity;
     mh_notes := assign (option_map Some notes) (mh_notes r) |}.

(** What the [.set] of [upsertHabitCompletion] makes of a row. *)
Definition completionUpdate (completed : bool) (now : Date) (r : HabitCompletion)
  : HabitCompletion :=
  {| hc_id := hc_id r; hc_habitId := hc_habitId r; hc_userId := hc_userId r;
     hc_date := hc_date r; hc_completed := if completed then 1 else 0;
     hc_notes := hc_notes r;
     hc_completedAt := if completed then Some now else None |}.

(** At most one mood record per user and local day. *)
Definition oneMoodPerDay (tz : Z) (db : DB) : Prop :=
  forall userId date,
    (List.length (select (moodHistory db) (moodHistoryOn tz userId date)) <= 1)%nat.

(** At most one completion record per habit, user and local day. *)
Definition oneCompletionPerDay (tz : Z) (db : DB) : Prop :=
  forall habitId userId date,
    (List.length (select (habitCompletions db)
                    (habitCompletionOn tz habitId userId date)) <= 1)%nat.

End Invariants.

(** * Properties *)

Import JsNumber LocalTime Schema Drizzle Effect Db AppRouter Observations.
Local Open Scope request_scope.

(** ** The day window *)

Section DayWindow.
Variable tz : Z.

(** A date lies between the first and the last instant of [date]'s local
    day exactly when it falls on the same local day. *)
Lemma day_window (date d : Date) :
  (setHours tz date 0 0 0 0 <=? d) && (d <=? setHours tz date 23 59 59 999)
  = (localDay tz d =? localDay tz date).
Proof.
  unfold setHours, localDay, msPerDay.
  pose proof (Z.div_mod (date + tz) 86400000 ltac:(lia)) as Hq.
  pose proof (Z.mod_pos_bound (date + tz) 86400000 ltac:(lia)) as Hr.
  pose proof (Z.div_mod (d + tz) 86400000 ltac:(lia)) as Hq'.
  pose proof (Z.mod_pos_bound (d + tz) 86400000 ltac:(lia)) as Hr'.
  destruct (Z.eqb_spec ((d + tz) / 86400000) ((date + tz) / 86400000)) as [E | E];
    destruct (Z.leb_spec (date - (date + tz) mod 86400000 + (((0 * 60 + 0) * 60 + 0) * 1000 + 0)) d);
    destruct (Z.leb_spec d (date - (date + tz) mod 86400000 + (((23 * 60 + 59) * 60 + 59) * 1000 + 999)));
    simpl; try reflexivity; exfalso; lia.
Qed.


Lemma habitCompletionOn_spec (habitId userId : Z) (date : Date) (r : HabitCompletion) :
  habitCompletionOn tz habitId userId date r
  = (hc_habitId r =? habitId) && (hc_userId r =? userId)
    && (localDay tz (hc_date r) =? localDay tz date).
Proof.
  unfold habitCompletionOn. rewrite <- !andb_assoc, day_window. reflexivity.
Qed.
End DayWindow.

(** ** Statements against a table *)

Section Statements.
Context {R : Type}.

Lemma select_insert (t : Table R) (values : Z -> R) (p : R -> bool) :
  select (insert t values) p
  = (select t p ++ (if p (values (nextId t)) then [values (nextId t)] else []))%list.
Proof.
  unfold select, insert; simpl. rewrite filter_app. simpl.
  destruct (p (values (nextId t))); reflexivity.
Qed.

(** An update that leaves the columns of a condition alone leaves the rows
    the condition selects in place, each one updated if it was aimed at. *)
Lemma select_update (t : Table R) (set : R -> R) (aimed p : R -> bool) :
  (forall r, p (set r) = p r) ->
  select (update t set aimed) p
  = map (fun r => if aimed r then set r else r) (select t p).
Proof.
  intros Hp. unfold select, update; simpl.
  induction (rows t) as [| r l IH]; simpl; [reflexivity |].
  assert (E : p (if aimed r then set r else r) = p r)
    by (destruct (aimed r); [apply Hp | reflexivity]).
  rewrite E. destruct (p r); simpl; rewrite IH; reflexivity.
Qed.

Lemma select_ext (t : Table R) (p q : R -> bool) :
  (forall r, p r = q r) -> select t p = select t q.
Proof. intros E. unfold select. apply filter_ext, E. Qed.
End Statements.

(** ** Day-bucket upsert *)

Section Upsert.
Variable tz : Z.


Lemma habitCompletionOn_same_day (habitId userId : Z) (d1 d2 : Date) (r : HabitCompletion) :
  localDay tz d1 = localDay tz d2 ->
  habitCompletionOn tz habitId userId d1 r = habitCompletionOn tz habitId userId d2 r.
Proof. intros E. rewrite !habitCompletionOn_spec, E. reflexivity. Qed.


Lemma completionsOn_same_day (db : DB) (habitId userId : Z) (d1 d2 : Date) :
  localDay tz d1 = localDay tz d2 ->
  completionsOn tz db habitId userId d1 = completionsOn tz db habitId userId d2.
Proof. intros E. apply select_ext. intros r. apply habitCompletionOn_same_day, E. Qed.

(** *** Mood history *)



(** *** Habit completions *)

Lemma upsertHabitCompletion_inserts (db : DB) (now : Date) (habitId userId : Z)
  (date : Date) (completed : bool) :
  completionsOn tz db habitId userId date = [] ->
  exists db',
    upsertHabitCompletion tz now habitId userId date completed (Some db)
    = (Returned tt, Some db')
    /\ nextId (habitCompletions db') = nextId (habitCompletions db) + 1
    /\ forall h u d,
         completionsOn tz db' h u d
         = (completionsOn tz db h u d
            ++ (if habitCompletionOn tz h u d
                     (completionRecord (nextId (habitCompletions db)) habitId
                        userId date completed now)
                then [completionRecord (nextId (habitCompletions db)) habitId
                        userId date completed now]
                else []))%list.
Proof.
  intros Hnone. eexists. split; [| split].
  - unfold upsertHabitCompletion, bind, getDb.
    unfold completionsOn in Hnone. rewrite Hnone. simpl. reflexivity.
  - reflexivity.
  - intros h u d. unfold completionsOn. simpl.
    apply (select_insert (habitCompletions db)
             (fun id => completionRecord id habitId userId date completed now)).
Qed.

Lemma upsertHabitCompletion_updates (db : DB) (now : Date) (habitId userId : Z)
  (date : Date) (completed : bool) (first : HabitCompletion)
  (others : list HabitCompletion) :
  completionsOn tz db habitId userId date = first :: others ->
  exists db',
    upsertHabitCompletion tz now habitId userId date completed (Some db)
    = (Returned tt, Some db')
    /\ forall h u d,
         completionsOn tz db' h u d
         = map (fun r =>
                  if hc_id r =? hc_id first
                  then {| hc_id := hc_id r; hc_habitId := hc_habitId r;
                          hc_userId := hc_userId r; hc_date := hc_date r;
                          hc_completed := if completed then 1 else 0;
                          hc_notes := hc_notes r;
                          hc_completedAt := if completed then Some now else None |}
                  else r)
               (completionsOn tz db h u d).
Proof.
  intros Hsome. eexists. split.
  - unfold upsertHabitCompletion, bind, getDb.
    unfold completionsOn in Hsome. rewrite Hsome. simpl. reflexivity.
  - intros h u d. unfold completionsOn. simpl.
    apply (select_update (habitCompletions db)). intros r. reflexivity.
Qed.


Lemma habitCompletionOn_inserted (h u : Z) (d : Date) (id habitId userId : Z)
  (date : Date) (completed : bool) (now : Date) :
  habitCompletionOn tz h u d (completionRecord id habitId userId date completed now)
  = (habitId =? h) && (userId =? u) && (localDay tz date =? localDay tz d).
Proof. rewrite habitCompletionOn_spec. reflexivity. Qed.


(** Two upserts of a habit completion, from a day without a record. *)
Lemma upsertHabitCompletion_twice (db : DB) (habitId userId : Z) (t1 t2 : Date)
  (now1 now2 : Date) (c1 c2 : bool) :
  completionsOn tz db habitId userId t1 = [] ->
  completionsOn tz db habitId userId t2 = [] ->
  exists db',
    (upsertHabitCompletion tz now1 habitId userId t1 c1 ;;
     upsertHabitCompletion tz now2 habitId userId t2 c2) (Some db)
    = (Returned tt, Some db')
    /\ (localDay tz t1 = localDay tz t2 ->
        completionsOn tz db' habitId userId t1
        = [ completionRecord (nextId (habitCompletions db)) habitId userId t1 c2 now2 ])
    /\ (localDay tz t1 <> localDay tz t2 ->
        completionsOn tz db' habitId userId t1
        = [ completionRecord (nextId (habitCompletions db)) habitId userId t1 c1 now1 ]
        /\ completionsOn tz db' habitId userId t2
           = [ completionRecord (nextId (habitCompletions db) + 1) habitId userId
                 t2 c2 now2 ]).
Proof.
  intros H1 H2.
  destruct (upsertHabitCompletion_inserts db now1 habitId userId t1 c1 H1)
    as (db1 & Hrun1 & Hnext1 & Hrows1).
  destruct (Z.eq_dec (localDay tz t1) (localDay tz t2)) as [Hday | Hday].
  - assert (Hfound : completionsOn tz db1 habitId userId t2
                     = [completionRecord (nextId (habitCompletions db)) habitId
                          userId t1 c1 now1]).
    { rewrite Hrows1, H2, habitCompletionOn_inserted, Hday, !Z.eqb_refl. reflexivity. }
    destruct (upsertHabitCompletion_updates db1 now2 habitId userId t2 c2 _ _ Hfound)
      as (db2 & Hrun2 & Hrows2).
    exists db2. split; [| split].
    + unfold bind. rewrite Hrun1. exact Hrun2.
    + intros _.
      rewrite Hrows2, (completionsOn_same_day db1 habitId userId t1 t2 Hday), Hfound.
      simpl. rewrite Z.eqb_refl. reflexivity.
    + intros Hne. contradiction.
  - assert (Hnone : completionsOn tz db1 habitId userId t2 = []).
    { rewrite Hrows1, H2, habitCompletionOn_inserted.
      destruct (Z.eqb_spec (localDay tz t1) (localDay tz t2)); [contradiction |].
      rewrite andb_false_r. reflexivity. }
    destruct (upsertHabitCompletion_inserts db1 now2 habitId userId t2 c2 Hnone)
      as (db2 & Hrun2 & Hnext2 & Hrows2).
    exists db2. split; [| split].
    + unfold bind. rewrite Hrun1. exact Hrun2.
    + intros He. contradiction.
    + intros _. rewrite !Hrows2, Hnone, !Hrows1, H1, Hnext1, !habitCompletionOn_inserted.
      rewrite !Z.eqb_refl.
      destruct (Z.eqb_spec (localDay tz t2) (localDay tz t1)) as [E | _];
        [symmetry in E; contradiction |].
      simpl. split; reflexivity.
Qed.
End Upsert.




(** C8.  For a habit, user and day holding at most one completion record,
    an upsert with [completed = true] followed by one with [completed = false]
    at an instant of the same local day leaves exactly one record for that
    habit, user and day, not completed and with no completion timestamp; and
    after an upsert with [completed = true] the record the day look-up finds
    is completed and carries the timestamp of the call. *)
Theorem habit_completion_toggle (tz : Z) (db : DB) (habitId userId : Z)
  (t1 t2 now1 now2 : Date) :
  (localDay tz t1 = localDay tz t2 ->
   (List.length (completionsOn tz db habitId userId t1) <= 1)%nat ->
   exists db' r,
     (upsertHabitCompletion tz now1 habitId userId t1 true ;;
      upsertHabitCompletion tz now2 habitId userId t2 false) (Some db)
     = (Returned tt, Some db')
     /\ completionsOn tz db' habitId userId t1 = [r]
     /\ hc_completed r = 0
     /\ hc_completedAt r = None)
  /\ (exists db' r,
        upsertHabitCompletion tz now1 habitId userId t1 true (Some db)
        = (Returned tt, Some db')
        /\ hd_error (completionsOn tz db' habitId userId t1) = Some r
        /\ hc_completed r = 1
        /\ hc_completedAt r = Some now1).
Proof.
  split.
  - intros Hday Hone.
    destruct (completionsOn tz db habitId userId t1) as [| e others] eqn:Hrows.
    + assert (Hrows2 : completionsOn tz db habitId userId t2 = [])
        by (rewrite <- (completionsOn_same_day tz db habitId userId t1 t2 Hday); exact Hrows).
      destruct (upsertHabitCompletion_twice tz db habitId userId t1 t2 now1 now2
                  true false Hrows Hrows2) as (db' & Hrun & Hsame & _).
      exists db'. eexists. split; [exact Hrun |]. split; [apply Hsame, Hday |].
      split; reflexivity.
    + destruct others as [| e' others]; [| simpl in Hone; lia].
      destruct (upsertHabitCompletion_updates tz db now1 habitId userId t1 true e []
                  Hrows) as (db1 & Hrun1 & Hrows1).
      assert (Hfound : completionsOn tz db1 habitId userId t2
                       = [ {| hc_id := hc_id e; hc_habitId := hc_habitId e;
                              hc_userId := hc_userId e; hc_date := hc_date e;
                              hc_completed := 1; hc_notes := hc_notes e;
                              hc_completedAt := Some now1 |} ]).
      { rewrite <- (completionsOn_same_day tz db1 habitId userId t1 t2 Hday).
        rewrite Hrows1, Hrows. simpl. rewrite Z.eqb_refl. reflexivity. }
      destruct (upsertHabitCompletion_updates tz db1 now2 habitId userId t2 false _ _
                  Hfound) as (db2 & Hrun2 & Hrows2).
      exists db2. eexists. split; [| split].
      * unfold bind. rewrite Hrun1. exact Hrun2.
      * rewrite Hrows2, (completionsOn_same_day tz db1 habitId userId t1 t2 Hday), Hfound.
        simpl. rewrite Z.eqb_refl. reflexivity.
      * split; reflexivity.
  - destruct (completionsOn tz db habitId userId t1) as [| e others] eqn:Hrows.
    + destruct (upsertHabitCompletion_inserts tz db now1 habitId userId t1 true Hrows)
        as (db' & Hrun & _ & Hrows').
      exists db'. eexists. split; [exact Hrun |]. split.
      * rewrite Hrows', Hrows, habitCompletionOn_inserted, !Z.eqb_refl. reflexivity.
      * split; reflexivity.
    + destruct (upsertHabitCompletion_updates tz db now1 habitId userId t1 true e others
                  Hrows) as (db' & Hrun & Hrows').
      exists db'. eexists. split; [exact Hrun |]. split.
      * rewrite Hrows', Hrows. simpl. rewrite Z.eqb_refl. reflexivity.
      * split; reflexivity.
Qed.

Lemma habit_completion_toggle_witness :
  exists db' r,
    (upsertHabitCompletion 0 1500 7 1 1000 true ;;
     upsertHabitCompletion 0 2500 7 1 2000 false) (Some emptyDB)
    = (Returned tt, Some db')
    /\ completionsOn 0 db' 7 1 1000 = [r]
    /\ hc_completed r = 0
    /\ hc_completedAt r = None.
Proof.
  exact (proj1 (habit_completion_toggle 0 emptyDB 7 1 1000 2000 1500 2500)
           eq_refl (le_S 0 0 (le_n 0))).
Defined.

(** ** Period aggregation *)

Section Objects.
Context {V : Type}.

Lemma keys_set (k : string) (v : V) (o : list (string * V)) :
  keys (JsObject.set k v o) = if in_dec string_dec k (keys o) then keys o
                              else (keys o ++ [k])%list.
Proof.
  induction o as [| [k' v'] o IH]; simpl; [reflexivity |].
  destruct (String.eqb_spec k' k) as [E | E]; simpl.
  - destruct (string_dec k' k); [| contradiction].
    reflexivity.
  - rewrite IH. destruct (string_dec k' k) as [E' | E']; [contradiction |].
    destruct (in_dec string_dec k (keys o)); reflexivity.
Qed.

Lemma get_set (k k' : string) (v : V) (o : list (string * V)) :
  JsObject.get k' (JsObject.set k v o)
  = if String.eqb k k' then Some v else JsObject.get k' o.
Proof.
  induction o as [| [k0 v0] o IH]; simpl.
  - destruct (String.eqb k k'); reflexivity.
  - destruct (String.eqb_spec k0 k) as [E | E]; simpl.
    + subst k0. destruct (String.eqb k k'); reflexivity.
    + rewrite IH. destruct (String.eqb_spec k0 k') as [E' | E'].
      * subst k0. destruct (String.eqb_spec k k'); [congruence | reflexivity].
      * reflexivity.
Qed.

Lemma get_In (k : string) (v : V) (o : list (string * V)) :
  NoDup (keys o) -> In (k, v) o -> JsObject.get k o = Some v.
Proof.
  induction o as [| [k0 v0] o IH]; simpl; intros Hnd Hin; [contradiction |].
  inversion Hnd as [| ? ? Hnotin Hnd']; subst.
  destruct Hin as [E | Hin].
  - inversion E; subst. rewrite String.eqb_refl. reflexivity.
  - destruct (String.eqb_spec k0 k) as [E | _]; [| apply IH; assumption].
    subst k0. exfalso. apply Hnotin. apply (in_map fst) in Hin. exact Hin.
Qed.
End Objects.

Lemma keys_count1 (counts : list (string * Z)) (m : MoodHistory) :
  keys (count1 counts m)
  = if in_dec string_dec (moodKey m) (keys counts) then keys counts
    else (keys counts ++ [moodKey m])%list.
Proof. apply keys_set. Qed.

Lemma NoDup_count1 (counts : list (string * Z)) (m : MoodHistory) :
  NoDup (keys counts) -> NoDup (keys (count1 counts m)).
Proof.
  intros Hnd. rewrite keys_count1.
  destruct (in_dec string_dec (moodKey m) (keys counts)) as [Hin | Hnot];
    [assumption |].
  apply NoDup_app; [assumption | repeat constructor; intros [] | ].
  intros x Hx [E | []]. subst x. contradiction.
Qed.

Lemma NoDup_fold (moods : list MoodHistory) (counts : list (string * Z)) :
  NoDup (keys counts) -> NoDup (keys (fold_left count1 moods counts)).
Proof.
  revert counts. induction moods as [| m moods IH]; simpl; intros counts Hnd;
    [assumption |].
  apply IH, NoDup_count1, Hnd.
Qed.

(** The keys already present stay where they are; new keys come behind. *)
Lemma keys_fold (moods : list MoodHistory) (counts : list (string * Z)) :
  exists new, keys (fold_left count1 moods counts) = (keys counts ++ new)%list.
Proof.
  revert counts. induction moods as [| m moods IH]; simpl; intros counts.
  - exists []. rewrite app_nil_r. reflexivity.
  - destruct (IH (count1 counts m)) as [new Hnew]. rewrite Hnew, keys_count1.
    destruct (in_dec string_dec (moodKey m) (keys counts)).
    + exists new. reflexivity.
    + exists (moodKey m :: new). rewrite <- app_assoc. reflexivity.
Qed.

Lemma getOrZero_count1 (k : string) (counts : list (string * Z)) (m : MoodHistory) :
  JsObject.getOrZero k (count1 counts m)
  = JsObject.getOrZero k counts + (if String.eqb (moodKey m) k then 1 else 0).
Proof.
  unfold JsObject.getOrZero at 1, count1. rewrite get_set.
  destruct (String.eqb_spec (moodKey m) k) as [E | E].
  - subst k. reflexivity.
  - unfold JsObject.getOrZero. lia.
Qed.

Lemma getOrZero_fold (k : string) (moods : list MoodHistory)
  (counts : list (string * Z)) :
  JsObject.getOrZero k (fold_left count1 moods counts)
  = JsObject.getOrZero k counts + occurrences k moods.
Proof.
  revert counts. unfold occurrences.
  induction moods as [| m moods IH]; simpl; intros counts; [lia |].
  rewrite IH, getOrZero_count1.
  destruct (String.eqb (moodKey m) k); simpl List.length; lia.
Qed.

Lemma In_keys_count1 (k : string) (counts : list (string * Z)) (m : MoodHistory) :
  In k (keys (count1 counts m)) <-> In k (keys counts) \/ k = moodKey m.
Proof.
  rewrite keys_count1.
  destruct (in_dec string_dec (moodKey m) (keys counts)) as [Hin | Hnot].
  - split; [auto | intros [H | H]; [assumption | subst; assumption]].
  - rewrite in_app_iff. simpl. intuition.
Qed.

Lemma In_keys_fold (k : string) (moods : list MoodHistory)
  (counts : list (string * Z)) :
  In k (keys (fold_left count1 moods counts))
  <-> In k (keys counts) \/ In k (map moodKey moods).
Proof.
  revert counts. induction moods as [| m moods IH]; simpl; intros counts.
  - intuition.
  - rewrite IH, In_keys_count1. intuition.
Qed.

(** An entry in front of which no record's key was new was preceded, in
    the list of records, only by records whose keys stand before it. *)
Lemma first_record_of_key (moods : list MoodHistory) (counts : list (string * Z))
  (before after : list (string * Z)) (k : string) (c : Z) :
  fold_left count1 moods counts = (before ++ (k, c) :: after)%list ->
  ~ In k (keys counts) ->
  exists pre m post,
    moods = (pre ++ m :: post)%list
    /\ moodKey m = k
    /\ forall m', In m' pre -> In (moodKey m') (keys before).
Proof.
  revert counts. induction moods as [| m moods IH]; simpl; intros counts Hfold Hnot.
  - exfalso. apply Hnot. rewrite Hfold. unfold keys. rewrite map_app, in_app_iff.
    right. left. reflexivity.
  - destruct (string_dec (moodKey m) k) as [E | E].
    + exists [], m, moods. split; [reflexivity |]. split; [exact E |].
      intros m' [].
    + assert (Hnot' : ~ In k (keys (count1 counts m))).
      { rewrite In_keys_count1. intros [H | H]; [contradiction | congruence]. }
      destruct (IH _ Hfold Hnot') as (pre & m0 & post & Hsplit & Hkey & Hpre).
      exists (m :: pre), m0, post. split; [rewrite Hsplit; reflexivity |].
      split; [exact Hkey |].
      intros m' [Hm' | Hm']; [subst m' | apply Hpre, Hm'].
      destruct (keys_fold moods (count1 counts m)) as [new Hnew].
      rewrite Hfold in Hnew. unfold keys in Hnew. rewrite map_app in Hnew.
      simpl in Hnew.
      assert (Hin : In (moodKey m) (keys (count1 counts m)))
        by (rewrite In_keys_count1; right; reflexivity).
      fold (keys before) (keys after) (keys (count1 counts m)) in Hnew.
      clear - Hnew Hin Hnot'.
      revert Hnew Hin Hnot'. generalize (keys (count1 counts m)) as have.
      generalize (keys before) as bef.
      induction bef as [| b bef IHb]; intros have Hnew Hin Hnot'; simpl in Hnew.
      * destruct have as [| h have]; [contradiction |].
        simpl in Hnew. inversion Hnew; subst. exfalso. apply Hnot'. left. reflexivity.
      * destruct have as [| h have]; [contradiction |].
        simpl in Hnew. inversion Hnew; subst.
        destruct Hin as [Hh | Hin]; [left; exact Hh | right].
        apply (IHb have); [assumption | assumption |].
        intros H. apply Hnot'. right. exact H.
Qed.

Lemma hd_insertSorted (x : string * Z) (l : list (string * Z)) :
  hd_error (insertSorted (fun a b => snd b - snd a) x l)
  = match hd_error l with
    | None => Some x
    | Some y => if snd y <=? snd x then Some x else Some y
    end.
Proof.
  destruct l as [| y l]; simpl; [reflexivity |].
  destruct (Z.leb_spec (snd y - snd x) 0), (Z.leb_spec (snd y) (snd x));
    try reflexivity; lia.
Qed.

Lemma hd_sort (o : list (string * Z)) :
  hd_error (sort (fun a b => snd b - snd a) o) = firstGreatest o.
Proof.
  induction o as [| x o IH]; simpl; [reflexivity |].
  rewrite hd_insertSorted, IH. reflexivity.
Qed.

Lemma firstGreatest_spec (o : list (string * Z)) (y : string * Z) :
  firstGreatest o = Some y ->
  exists before after,
    o = (before ++ y :: after)%list
    /\ (forall z, In z before -> snd z < snd y)
    /\ (forall z, In z after -> snd z <= snd y).
Proof.
  revert y. induction o as [| x o IH]; simpl; intros y Hy; [discriminate |].
  destruct (firstGreatest o) as [y0 |] eqn:Hrec.
  - destruct (IH y0 eq_refl) as (before & after & Ho & Hbefore & Hafter).
    destruct (Z.leb_spec (snd y0) (snd x)) as [Hle | Hlt]; inversion Hy; subst y.
    + exists [], o. split; [reflexivity |]. split; [intros z [] |].
      intros z Hz. rewrite Ho in Hz. apply in_app_or in Hz.
      destruct Hz as [Hz | [Hz | Hz]].
      * specialize (Hbefore z Hz). lia.
      * subst z. lia.
      * specialize (Hafter z Hz). lia.
    + exists (x :: before), after. split; [rewrite Ho; reflexivity |].
      split; [| exact Hafter].
      intros z [Hz | Hz]; [subst z; lia | apply Hbefore, Hz].
  - inversion Hy; subst y. destruct o as [| x' o'].
    + exists [], []. split; [reflexivity |]. split; intros z [].
    + simpl in Hrec. destruct (firstGreatest o') as [y1 |];
        [destruct (snd y1 <=? snd x') |]; discriminate.
Qed.

Lemma moodKey_not_empty (m : MoodHistory) : String.eqb (moodKey m) "" = false.
Proof. unfold moodKey. destruct (mh_mood m) as [[] |]; reflexivity. Qed.

Lemma moodCounts_count (moods : list MoodHistory) (k : string) (c : Z) :
  In (k, c) (moodCounts moods) -> c = occurrences k moods.
Proof.
  intros Hin. unfold moodCounts in Hin. fold count1 in Hin.
  change (fold_left _ moods []) with (fold_left count1 moods []) in Hin.
  pose proof (get_In k c _ (NoDup_fold moods [] (NoDup_nil _)) Hin) as Hget.
  pose proof (getOrZero_fold k moods []) as Hcount.
  unfold JsObject.getOrZero at 1 in Hcount. rewrite Hget in Hcount.
  simpl in Hcount. exact Hcount.
Qed.

Lemma firstGreatest_some (o : list (string * Z)) :
  o <> [] -> exists y, firstGreatest o = Some y.
Proof.
  destruct o as [| x o]; [congruence | intros _]. simpl.
  destruct (firstGreatest o) as [y |]; [| eauto].
  destruct (snd y <=? snd x); eauto.
Qed.

Lemma In_keys {V : Type} (k : string) (o : list (string * V)) :
  In k (keys o) -> exists v, In (k, v) o.
Proof.
  unfold keys. rewrite in_map_iff. intros [[k' v] [E Hin]]. simpl in E. subst k'.
  exists v. exact Hin.
Qed.

Lemma moodCounts_fold (moods : list MoodHistory) :
  moodCounts moods = fold_left count1 moods [].
Proof. reflexivity. Qed.

Lemma moodCounts_has_key (moods : list MoodHistory) (m : MoodHistory) :
  In m moods -> In (moodKey m) (keys (moodCounts moods)).
Proof.
  intros Hin. rewrite moodCounts_fold, In_keys_fold. right.
  apply in_map, Hin.
Qed.

(** C2 (amended).  In [insights.generateInsights] the dominant category is
    the category of the first fetched record whose category has the greatest
    count: every category is counted at most as often, and every record
    fetched before that one has a category counted strictly less often.  So
    among categories tied for the greatest count the one met first in the
    fetched list wins. *)
Theorem dominant_is_first_encountered_greatest (moods : list MoodHistory) :
  moods <> [] ->
  exists pre m post,
    moods = (pre ++ m :: post)%list
    /\ dominantMood moods = moodKey m
    /\ (forall m', In m' pre ->
          occurrences (moodKey m') moods < occurrences (moodKey m) moods)
    /\ (forall m', In m' moods ->
          occurrences (moodKey m') moods <= occurrences (moodKey m) moods).
Proof.
  intros Hne.
  assert (Hcounts : moodCounts moods <> []).
  { destruct moods as [| m0 moods]; [congruence |].
    intros E. pose proof (moodCounts_has_key (m0 :: moods) m0 (or_introl eq_refl)) as H.
    rewrite E in H. exact H. }
  destruct (firstGreatest_some _ Hcounts) as [[k c] Hbest].
  destruct (firstGreatest_spec _ _ Hbest) as (before & after & Hsplit & Hbefore & Hafter).
  destruct (first_record_of_key moods [] before after k c) as (pre & m & post & Hm & Hk & Hpre).
  { rewrite <- moodCounts_fold. exact Hsplit. }
  { intros []. }
  assert (Hc : c = occurrences k moods).
  { apply moodCounts_count. rewrite Hsplit. apply in_or_app. right. left. reflexivity. }
  exists pre, m, post. split; [exact Hm |]. split; [| split].
  - unfold dominantMood, dominantOf. pose proof (hd_sort (moodCounts moods)) as Hhd.
    rewrite Hbest in Hhd.
    destruct (sort (fun x y => snd y - snd x) (moodCounts moods)) as [| [k0 c0] rest];
      [discriminate |].
    simpl in Hhd. inversion Hhd; subst k0 c0. rewrite <- Hk, moodKey_not_empty.
    reflexivity.
  - intros m' Hm'. destruct (In_keys _ _ (Hpre m' Hm')) as [c' Hc'].
    specialize (Hbefore _ Hc'). simpl in Hbefore.
    assert (E : c' = occurrences (moodKey m') moods).
    { apply moodCounts_count. rewrite Hsplit. apply in_or_app. left. exact Hc'. }
    rewrite Hk. lia.
  - intros m' Hm'. destruct (In_keys _ _ (moodCounts_has_key moods m' Hm')) as [c' Hc'].
    pose proof (moodCounts_count _ _ _ Hc') as E.
    rewrite Hsplit in Hc'. apply in_app_or in Hc'. rewrite Hk.
    destruct Hc' as [Hc' | [Hc' | Hc']].
    + specialize (Hbefore _ Hc'). simpl in Hbefore. lia.
    + inversion Hc'. lia.
    + specialize (Hafter _ Hc'). simpl in Hafter. lia.
Qed.

Lemma dominant_is_first_encountered_greatest_witness :
  exists pre m post,
    [ moodRecord 2 1 86400000 good 5%float None;
      moodRecord 1 1 0 excellent 5%float None ] = (pre ++ m :: post)%list
    /\ dominantMood [ moodRecord 2 1 86400000 good 5%float None;
                      moodRecord 1 1 0 excellent 5%float None ] = moodKey m.
Proof.
  destruct (dominant_is_first_encountered_greatest
              [ moodRecord 2 1 86400000 good 5%float None;
                moodRecord 1 1 0 excellent 5%float None ]
              ltac:(discriminate)) as (pre & m & post & Hsplit & Hdom & _).
  exists pre, m, post. split; assumption.
Defined.

(** C2, as stated, fails: with one [good] and one [excellent] record, fetched
    in that order, the dominant category is "good", not the first-declared
    "excellent"; the answer follows the order of the records. *)
Lemma tie_follows_record_order :
  dominantMood [ moodRecord 2 1 86400000 good 5%float None;
                 moodRecord 1 1 0 excellent 5%float None ] = "good"
  /\ dominantMood [ moodRecord 2 1 86400000 good 5%float None;
                    moodRecord 1 1 0 excellent 5%float None ] <> "excellent"
  /\ dominantMood [ moodRecord 2 1 86400000 excellent 5%float None;
                    moodRecord 1 1 0 good 5%float None ] = "excellent".
Proof.
  split; [reflexivity |]. split; [| reflexivity].
  vm_compute. discriminate.
Qed.

(** C3 (amended).  For the mood list [good/7, good/5, sad/3] and the period
    "week", the insight that is stored has the count mapping with exactly the
    entries good: 2 and sad: 1, in that order, the average "5.00", the dominant
    category "good" and the summary text of the template. *)
Theorem week_of_three_moods (user : Z) (periodStart periodEnd : Date)
  (habits : list Habit) (id : Z)
  (id1 id2 id3 u1 u2 u3 : Z) (d1 d2 d3 : Date) (n1 n2 n3 : option string) :
  let moods := [ moodRecord id1 u1 d1 good 7%float n1;
                 moodRecord id2 u2 d2 good 5%float n2;
                 moodRecord id3 u3 d3 sad 3%float n3 ] in
  let stored := insight user {| gi_period := week; gi_periodStart := periodStart;
                                gi_periodEnd := periodEnd |} moods habits id in
  mi_moodDistribution stored = [("good", 2); ("sad", 1)]
  /\ mi_averageMoodScore stored = "5.00"
  /\ mi_dominantMood stored = "good"
  /\ mi_insights stored
     = "During this week, your dominant mood was good with an average intensity of 5.00/10. You tracked 3 mood entries.".
Proof.
  repeat split; vm_compute; reflexivity.
Qed.

(** A record without a category is counted under "unknown". *)
Lemma missing_category_counts_as_unknown (id userId : Z) (date : Date)
  (moodIntensity : number) (notes : option string) :
  moodCounts [ {| mh_id := id; mh_userId := userId; mh_date := date;
                  mh_mood := None; mh_moodIntensity := moodIntensity;
                  mh_notes := notes |} ]
  = [("unknown", 1)].
Proof. reflexivity. Qed.

(** C3, as stated, fails: the count mapping of [insights.generateInsights]
    starts empty, and after [good/7, good/5, sad/3] it has no entry, rather
    than an entry 0, for the categories that did not occur. *)
Lemma absent_categories_have_no_count :
  moodCounts [] = []
  /\ JsObject.get "excellent"
       (moodCounts [ moodRecord 1 1 0 good 7%float None;
                     moodRecord 2 1 86400000 good 5%float None;
                     moodRecord 3 1 172800000 sad 3%float None ]) = None
  /\ JsObject.get "excellent"
       (moodCounts [ moodRecord 1 1 0 good 7%float None;
                     moodRecord 2 1 86400000 good 5%float None;
                     moodRecord 3 1 172800000 sad 3%float None ]) <> Some 0.
Proof.
  split; [reflexivity |]. split; [reflexivity | vm_compute; discriminate].
Qed.

(** ** The range query *)

Section Ordering.
Context {R : Type} (key : R -> Z).

Lemma insertSorted_perm (x : R) (l : list R) :
  Permutation (insertSorted (fun a b => key b - key a) x l) (x :: l).
Proof.
  induction l as [| y l IH]; simpl; [reflexivity |].
  destruct (key y - key x <=? 0); [reflexivity |].
  rewrite IH. apply perm_swap.
Qed.

Lemma orderByDesc_perm (l : list R) : Permutation (orderByDesc key l) l.
Proof.
  unfold orderByDesc, sort. induction l as [| x l IH]; simpl; [reflexivity |].
  rewrite insertSorted_perm, IH. reflexivity.
Qed.

Lemma insertSorted_sorted (x : R) (l : list R) :
  StronglySorted (fun a b => key b <= key a) l ->
  StronglySorted (fun a b => key b <= key a)
    (insertSorted (fun a b => key b - key a) x l).
Proof.
  induction l as [| y l IH]; simpl; intros Hs.
  - constructor; constructor.
  - inversion Hs as [| ? ? Hl Hy]; subst.
    destruct (Z.leb_spec (key y - key x) 0) as [Hle | Hgt].
    + constructor; [exact Hs |]. constructor; [lia |].
      eapply Forall_impl; [| exact Hy]. simpl. intros z Hz. lia.
    + constructor; [apply IH, Hl |].
      eapply Permutation_Forall; [symmetry; apply insertSorted_perm |].
      constructor; [lia | exact Hy].
Qed.

Lemma orderByDesc_sorted (l : list R) :
  StronglySorted (fun a b => key b <= key a) (orderByDesc key l).
Proof.
  unfold orderByDesc, sort. induction l as [| x l IH]; simpl; [constructor |].
  apply insertSorted_sorted, IH.
Qed.
End Ordering.

Lemma moodCounts_first_key (moods : list MoodHistory) :
  hd_error (keys (moodCounts moods)) = option_map moodKey (hd_error moods).
Proof.
  destruct moods as [| m moods]; [reflexivity |].
  rewrite moodCounts_fold. simpl fold_left.
  destruct (keys_fold moods (count1 [] m)) as [new Hnew]. rewrite Hnew. reflexivity.
Qed.

(** C10.  The range query that feeds [insights.generateInsights] returns the
    user's records of the window (each of them once) ordered by date, newest
    first; the aggregation runs over that list in that order, so the category
    of the newest record is the first key of the count mapping. *)
Theorem range_query_newest_first (w : World) (user : Z) (input : GenerateInsightsInput) :
  exists moods habits,
    getMoodHistoryByDateRange user (gi_periodStart input) (gi_periodEnd input) w
    = (Returned moods, w)
    /\ Permutation moods
         match w with
         | Some db =>
             filter (fun r => (mh_userId r =? user)
                              && (gi_periodStart input <=? mh_date r)
                              && (mh_date r <=? gi_periodEnd input))
                    (rows (moodHistory db))
         | None => []
         end
    /\ StronglySorted (fun a b => mh_date b <= mh_date a) moods
    /\ insights_generateInsights user input w
       = (if (List.length moods =? 0)%nat then throw noMoodData
          else createMoodInsight (insight user input moods habits)) w
    /\ hd_error (keys (moodCounts moods)) = option_map moodKey (hd_error moods).
Proof.
  destruct w as [db |].
  - eexists. eexists. split; [reflexivity |]. split; [apply orderByDesc_perm |].
    split; [apply orderByDesc_sorted |]. split; [reflexivity |].
    apply moodCounts_first_key.
  - exists [], []. repeat split; constructor.
Qed.

(** ** Rejections *)

(** C4.  When the fetched mood list is empty, [insights.generateInsights]
    throws the BAD_REQUEST error with the message "No mood data available for
    this period" and leaves the world, and so the table of insights, as it
    was. *)
Theorem no_mood_data_rejected (w : World) (user : Z) (input : GenerateInsightsInput) :
  fst (getMoodHistoryByDateRange user (gi_periodStart input) (gi_periodEnd input) w)
  = Returned [] ->
  insights_generateInsights user input w
  = (Thrown (TRPCError BAD_REQUEST (Some "No mood data available for this period")), w).
Proof.
  intros Hempty. unfold insights_generateInsights, bind.
  destruct w as [db |]; simpl in *.
  - inversion Hempty as [E]. rewrite E. reflexivity.
  - reflexivity.
Qed.

Lemma no_mood_data_rejected_witness :
  insights_generateInsights 1
    {| gi_period := week; gi_periodStart := 0; gi_periodEnd := 604800000 |}
    (Some emptyDB)
  = (Thrown (TRPCError BAD_REQUEST (Some "No mood data available for this period")),
     Some emptyDB).
Proof.
  exact (no_mood_data_rejected (Some emptyDB) 1
           {| gi_period := week; gi_periodStart := 0; gi_periodEnd := 604800000 |}
           eq_refl).
Defined.

(** C6 (amended).  Without a database handle the writing operations (the two
    upserts, the creation of an insight) throw "Database not available"; the
    reading operations do not fail: the day look-up returns no record and the
    range query the empty list, as they do when nothing is stored; and
    [insights.generateInsights] rejects with its "no mood data" error. *)
Theorem without_database (tz : Z) (now : Date) (userId habitId : Z) (date : Date)
  (mood : Mood) (moodIntensity : number) (notes : option string) (completed : bool)
  (startDate endDate : Date) (newInsight : Z -> MoodInsight)
  (input : GenerateInsightsInput) :
  upsertMoodHistory tz userId date mood moodIntensity notes None
  = (Thrown (JsError "Database not available"), None)
  /\ upsertHabitCompletion tz now habitId userId date completed None
     = (Thrown (JsError "Database not available"), None)
  /\ createMoodInsight newInsight None
     = (Thrown (JsError "Database not available"), None)
  /\ getMoodHistoryByDate tz userId date None = (Returned None, None)
  /\ getMoodHistoryByDateRange userId startDate endDate None = (Returned [], None)
  /\ insights_generateInsights userId input None
     = (Thrown (TRPCError BAD_REQUEST (Some "No mood data available for this period")),
        None).
Proof. repeat split. Qed.

(** C6, as stated, fails for the day look-up: without a database handle it
    returns normally, and what it returns is what it returns when the
    database holds no record for the day. *)
Lemma lookup_without_database_returns :
  getMoodHistoryByDate 0 1 1000 None = (Returned None, None)
  /\ (forall e, fst (getMoodHistoryByDate 0 1 1000 None) <> Thrown e)
  /\ fst (getMoodHistoryByDate 0 1 1000 None)
     = fst (getMoodHistoryByDate 0 1 1000 (Some emptyDB)).
Proof.
  split; [reflexivity |]. split; [intros e; discriminate | reflexivity].
Qed.

(** ** Ownership *)

(** [diary.update] refuses, before any statement is sent, every identifier
    other than that of the entry the day look-up finds for the caller and the
    current day. *)
Lemma diary_update_forbidden (tz : Z) (now : Date) (user : Z)
  (input : DiaryUpdateInput) (w : World) :
  (forall e, fst (getDiaryEntryByDate tz user now w) = Returned (Some e) ->
             de_id e <> du_id input) ->
  diary_update tz now user input w = (Thrown (TRPCError FORBIDDEN None), w).
Proof.
  intros Hother. unfold diary_update, bind.
  destruct (getDiaryEntryByDate tz user now w) as [[[e |] | ex] w'] eqn:Hget.
  - assert (w' = w) by (destruct w; simpl in Hget; inversion Hget; reflexivity).
    subst w'. specialize (Hother e eq_refl).
    destruct (Z.eqb_spec (de_id e) (du_id input)); [contradiction | reflexivity].
  - assert (w' = w) by (destruct w; simpl in Hget; inversion Hget; reflexivity).
    subst w'. reflexivity.
  - destruct w; simpl in Hget; discriminate.
Qed.

(** C7 does not hold of the code.  User 2 archives, and then
    renames, the habit of user 1: both procedures return normally and the row
    of user 1 is changed. *)
Theorem habit_of_another_user_is_modified :
  habits_archive 2 1
    (Some (withHabits emptyDB {| rows := [morningRun 1]; nextId := 2 |}))
  = (Returned tt, Some (withHabits emptyDB {| rows := [morningRun 0]; nextId := 2 |}))
  /\ habits_update 2
       {| hu_id := 1; hu_name := Some "Taken over"; hu_description := None;
          hu_color := None; hu_icon := None |}
       (Some (withHabits emptyDB {| rows := [morningRun 1]; nextId := 2 |}))
     = (Returned tt,
        Some (withHabits emptyDB
                {| rows := [ {| h_id := 1; h_userId := 1; h_name := "Taken over";
                                h_description := None; h_color := None;
                                h_icon := None; h_createdAt := 0;
                                h_isActive := 1 |} ];
                   nextId := 2 |})).
Proof. split; reflexivity. Qed.

(** ** Validation of [mood.record] *)







(** ** The statistics of the insights page *)

Lemma pageCounts_keys (moods : list MoodHistory) :
  keys (InsightsPage.moodCounts moods)
  = ["excellent"; "good"; "neutral"; "sad"; "terrible"].
Proof.
  unfold InsightsPage.moodCounts.
  assert (Hgen : forall counts,
             keys counts = ["excellent"; "good"; "neutral"; "sad"; "terrible"] ->
             keys (fold_left
                     (fun counts m =>
                        match mh_mood m with
                        | Some c => JsObject.set (moodName c)
                                      (JsObject.getOrZero (moodName c) counts + 1) counts
                        | None => counts
                        end) moods counts)
             = ["excellent"; "good"; "neutral"; "sad"; "terrible"]).
  { induction moods as [| m moods IH]; simpl; intros counts Hk; [exact Hk |].
    apply IH. destruct (mh_mood m) as [c |]; [| exact Hk].
    rewrite keys_set, Hk.
    destruct (in_dec string_dec (moodName c)
                ["excellent"; "good"; "neutral"; "sad"; "terrible"]) as [_ | Hnot];
      [reflexivity |].
    exfalso. apply Hnot. destruct c; simpl; auto 6. }
  apply Hgen. reflexivity.
Qed.

(** C5 does not hold of the code.  Two records taken at noon
    on 3 November 2025 and on 3 November 2026, both inside the window of the
    "year" view opened on the second date, fall on different local days and
    are filed under the one key "Nov 3": the trend has a single bar, the
    average of the two. *)
Theorem trend_merges_two_years :
  localDay 0 1762171200000 <> localDay 0 1793707200000
  /\ InsightsPage.dayLabel 0 (moodRecord 1 1 1762171200000 sad 2%float None) = "Nov 3"
  /\ InsightsPage.dayLabel 0 (moodRecord 2 1 1793707200000 good 8%float None) = "Nov 3"
  /\ InsightsPage.trendData 0
       [ moodRecord 2 1 1793707200000 good 8%float None;
         moodRecord 1 1 1762171200000 sad 2%float None ]
     = [("Nov 3", 5%float)].
Proof.
  split; [vm_compute; discriminate |]. repeat split; vm_compute; reflexivity.
Qed.

Section Page.
Variable tz : Z.

Lemma getOrZero_pageCount1 (k : string) (counts : list (string * Z)) (m : MoodHistory) :
  JsObject.getOrZero k (pageCount1 counts m)
  = JsObject.getOrZero k counts
    + (match mh_mood m with
       | Some c => if String.eqb (moodName c) k then 1 else 0
       | None => 0
       end).
Proof.
  unfold pageCount1. destruct (mh_mood m) as [c |]; [| lia].
  unfold JsObject.getOrZero at 1. rewrite get_set.
  destruct (String.eqb_spec (moodName c) k) as [E | E].
  - subst k. reflexivity.
  - unfold JsObject.getOrZero. lia.
Qed.

Lemma getOrZero_pageFold (k : string) (moods : list MoodHistory)
  (counts : list (string * Z)) :
  JsObject.getOrZero k (fold_left pageCount1 moods counts)
  = JsObject.getOrZero k counts + pageOccurrences k moods.
Proof.
  revert counts. unfold pageOccurrences.
  induction moods as [| m moods IH]; simpl; intros counts; [lia |].
  rewrite IH, getOrZero_pageCount1.
  destruct (mh_mood m) as [c |]; [destruct (String.eqb (moodName c) k) |];
    simpl List.length; lia.
Qed.

Lemma pageCounts_values (moods : list MoodHistory) :
  InsightsPage.moodCounts moods
  = [ ("excellent", pageOccurrences "excellent" moods);
      ("good", pageOccurrences "good" moods);
      ("neutral", pageOccurrences "neutral" moods);
      ("sad", pageOccurrences "sad" moods);
      ("terrible", pageOccurrences "terrible" moods) ].
Proof.
  pose proof (pageCounts_keys moods) as Hkeys.
  assert (Hval : forall k, JsObject.getOrZero k (InsightsPage.moodCounts moods)
                           = JsObject.getOrZero k InsightsPage.initialCounts
                             + pageOccurrences k moods)
    by (intros k; apply (getOrZero_pageFold k moods InsightsPage.initialCounts)).
  pose proof (Hval "excellent") as H1. pose proof (Hval "good") as H2.
  pose proof (Hval "neutral") as H3. pose proof (Hval "sad") as H4.
  pose proof (Hval "terrible") as H5. clear Hval.
  destruct (InsightsPage.moodCounts moods)
    as [| [k1 v1] [| [k2 v2] [| [k3 v3] [| [k4 v4] [| [k5 v5] [| ? ?]]]]]];
    try discriminate.
  inversion Hkeys; subst. unfold JsObject.getOrZero in *. simpl in *.
  repeat f_equal; lia.
Qed.

Lemma get_daily1 (label : string) (daily : list (string * number)) (m : MoodHistory) :
  JsObject.get label (daily1 tz daily m)
  = if String.eqb (InsightsPage.dayLabel tz m) label
    then Some (PrimFloat.add (orZero (startOf (JsObject.get label daily)))
                 (orZero (mh_moodIntensity m)))
    else JsObject.get label daily.
Proof.
  unfold daily1. rewrite get_set.
  destruct (String.eqb_spec (InsightsPage.dayLabel tz m) label) as [E | E];
    [| reflexivity].
  rewrite E. destruct (JsObject.get label daily); reflexivity.
Qed.

Lemma get_dailyFold (label : string) (moods : list MoodHistory)
  (daily : list (string * number)) :
  JsObject.get label (fold_left (daily1 tz) moods daily)
  = match groupOf tz label moods with
    | [] => JsObject.get label daily
    | group =>
        Some (fold_left
                (fun total m =>
                   PrimFloat.add (orZero total) (orZero (mh_moodIntensity m)))
                group (startOf (JsObject.get label daily)))
    end.
Proof.
  revert daily. unfold groupOf.
  induction moods as [| m moods IH]; simpl; intros daily; [reflexivity |].
  rewrite IH, get_daily1.
  destruct (String.eqb (InsightsPage.dayLabel tz m) label); simpl.
  - destruct (filter _ moods); reflexivity.
  - reflexivity.
Qed.

Lemma NoDup_dailyFold (moods : list MoodHistory) (daily : list (string * number)) :
  NoDup (keys daily) -> NoDup (keys (fold_left (daily1 tz) moods daily)).
Proof.
  revert daily. induction moods as [| m moods IH]; simpl; intros daily Hnd;
    [assumption |].
  apply IH. unfold daily1. rewrite keys_set.
  destruct (in_dec string_dec (InsightsPage.dayLabel tz m) (keys daily)) as [Hin | Hnot];
    [assumption |].
  apply NoDup_app; [assumption | repeat constructor; intros [] |].
  intros x Hx [E | []]. subst x. contradiction.
Qed.

Lemma In_get {V : Type} (k : string) (v : V) (o : list (string * V)) :
  JsObject.get k o = Some v -> In (k, v) o.
Proof.
  induction o as [| [k0 v0] o IH]; simpl; [discriminate |].
  destruct (String.eqb_spec k0 k) as [E | E]; intros H.
  - inversion H; subst. left. reflexivity.
  - right. apply IH, H.
Qed.

Lemma dailyData_entry (moods : list MoodHistory) (label : string) (total : number) :
  In (label, total) (InsightsPage.dailyData tz moods)
  <-> groupOf tz label moods <> []
      /\ total = groupTotal (groupOf tz label moods).
Proof.
  change (InsightsPage.dailyData tz moods) with (fold_left (daily1 tz) moods []).
  pose proof (get_dailyFold label moods []) as Hget. simpl in Hget.
  pose proof (NoDup_dailyFold moods [] (NoDup_nil _)) as Hnd.
  split.
  - intros Hin. apply (get_In _ _ _ Hnd) in Hin. rewrite Hin in Hget.
    unfold groupTotal. destruct (groupOf tz label moods); [discriminate |].
    split; [discriminate |]. inversion Hget. reflexivity.
  - intros [Hne Htotal]. apply In_get. rewrite Hget. unfold groupTotal in Htotal.
    destruct (groupOf tz label moods); [congruence |]. rewrite Htotal. reflexivity.
Qed.
End Page.

(** What the page does compute: (a) the count of each of the five known
    categories, 0 for a category without records, and (b) one trend entry per
    day label (the short month name and the day of the month of the record's
    local date), whose value is the total of the intensities filed under the
    label divided by the number of records filed under it, rounded to one
    decimal place by [toFixed 1]. *)
Lemma page_statistics (tz : Z) (moods : list MoodHistory) :
  InsightsPage.chartData moods
  = [ ("Excellent", pageOccurrences "excellent" moods);
      ("Good", pageOccurrences "good" moods);
      ("Neutral", pageOccurrences "neutral" moods);
      ("Sad", pageOccurrences "sad" moods);
      ("Terrible", pageOccurrences "terrible" moods) ]
  /\ NoDup (keys (InsightsPage.trendData tz moods))
  /\ forall label v,
       In (label, v) (InsightsPage.trendData tz moods)
       <-> groupOf tz label moods <> []
           /\ v = parseFloat
                    (toFixed 1
                       (PrimFloat.div (groupTotal (groupOf tz label moods))
                          (ofZ (Z.of_nat (List.length (groupOf tz label moods)))))).
Proof.
  split; [| split].
  - unfold InsightsPage.chartData. rewrite pageCounts_values. reflexivity.
  - unfold InsightsPage.trendData, keys. rewrite map_map. simpl.
    apply (NoDup_dailyFold tz moods [] (NoDup_nil _)).
  - intros label v. unfold InsightsPage.trendData. rewrite in_map_iff. split.
    + intros [[label' total] [E Hin]]. simpl in E. inversion E; subst label'.
      apply dailyData_entry in Hin. destruct Hin as [Hne Htotal].
      split; [exact Hne |]. subst total. fold (groupOf tz label moods).
      destruct (groupOf tz label moods) as [| m g]; [congruence |]. reflexivity.
    + intros [Hne Hv]. exists (label, groupTotal (groupOf tz label moods)). split.
      * simpl. fold (groupOf tz label moods). subst v.
        destruct (groupOf tz label moods) as [| m g]; [congruence |]. reflexivity.
      * apply dailyData_entry. split; [exact Hne | reflexivity].
Qed.
